(** * The Vitest CTRF JSON reporter, embedded in Rocq

    A shallow embedding of [GenerateCtrfReport], the reporter class of
    [src/src/generate-report.ts] and of its second copy
    [src/unnamed/part_000] (which adds the resolution of a source line
    from the stack trace), together with the properties of the report it
    accumulates.

    Conventions of the embedding.
    - A JavaScript string is a [string]: a sequence of code units, here
      restricted to the range 0..255.
    - A JavaScript number is a [Z].  The reporter only increments counters,
      copies numbers and reads decimal digits; it never divides, so integers
      are enough (fractional durations and precision above 2^53 are outside
      the model).
    - [undefined] is [None] where a value has a static type, and
      [Js.Undefined] inside objects whose set of properties varies.
    - An exception is the [Throw] constructor of [Exn].
    - What the reporter asks of Node ([Date.now], [fs], [path]) comes either
      as an explicit argument of the call or through a [Host] record. *)

From Stdlib Require Import ZArith List String Ascii Bool Lia DecimalString.
Import ListNotations.

Set Warnings "-register-all".

Local Open Scope list_scope.
Local Open Scope string_scope.

(** ** Exceptions *)

Inductive Exn (A : Type) : Type :=
| Ok (a : A)
| Throw (error : string).
Arguments Ok {A} a.
Arguments Throw {A} error.

(** [a ?? d] *)
Definition nullish {A : Type} (a : option A) (d : A) : A :=
  match a with
  | Some x => x
  | None => d
  end.

Notation "a ?? d" := (nullish a d) (at level 45, left associativity).

Definition LF : string := String (ascii_of_nat 10) "".

(** ** JavaScript values, objects and the builtins the reporter calls *)

Module Js.

Inductive value : Type :=
| Undefined
| Bool (b : bool)
| Num (n : Z)
| Str (s : string)
| Arr (items : list value)
| Obj (props : list (string * value)).

(** An object is the list of its own properties in insertion order, each
    key at most once. *)
Definition object : Type := list (string * value).

Definition empty : object := [].

(** [o.k]: [undefined] when [o] has no property [k]. *)
Fixpoint get (o : object) (k : string) : value :=
  match o with
  | [] => Undefined
  | (k', v) :: rest => if String.eqb k' k then v else get rest k
  end.

(** [k in o] for own properties. *)
Fixpoint has (o : object) (k : string) : bool :=
  match o with
  | [] => false
  | (k', _) :: rest => String.eqb k' k || has rest k
  end.

(** [o.k = v]: an existing property keeps its place, a new one goes last.
    Assigning [undefined] still creates the property. *)
Fixpoint set (o : object) (k : string) (v : value) : object :=
  match o with
  | [] => [(k, v)]
  | (k', v') :: rest =>
      if String.eqb k' k then (k', v) :: rest else (k', v') :: set rest k v
  end.

(** [Object.keys(o)] *)
Definition keys (o : object) : list string := map fst o.

(** [delete o.k] *)
Fixpoint delete (o : object) (k : string) : object :=
  match o with
  | [] => []
  | (k', v) :: rest =>
      if String.eqb k' k then delete rest k else (k', v) :: delete rest k
  end.

(** [Boolean(x)] for [x : string | undefined] *)
Definition truthy (x : option string) : bool :=
  match x with
  | None => false
  | Some s => negb (String.eqb s "")
  end.

(** [xs.join(sep)] for an array of [string | undefined]: an [undefined]
    element is written as the empty string. *)
Fixpoint join (sep : string) (xs : list (option string)) : string :=
  match xs with
  | [] => ""
  | [x] => x ?? ""
  | x :: rest => (x ?? "") ++ sep ++ join sep rest
  end.

(** [s.split('\n')] *)
Fixpoint split_lines_aux (cur : string) (s : string) : list string :=
  match s with
  | EmptyString => [cur]
  | String c rest =>
      if Ascii.eqb c (ascii_of_nat 10)
      then cur :: split_lines_aux "" rest
      else split_lines_aux (cur ++ String c "") rest
  end.

Definition split_lines (s : string) : list string := split_lines_aux "" s.

(** [s.endsWith(suffix)] *)
Definition endsWith (s suffix : string) : bool :=
  let n := String.length s in
  let m := String.length suffix in
  (m <=? n)%nat && String.eqb (substring (n - m) m s) suffix.

(** *** [JSON.stringify(v, null, 2)] *)

Definition dquote : ascii := ascii_of_nat 34.

Definition hex_digit (n : nat) : ascii :=
  match n with
  | 0 => "0" | 1 => "1" | 2 => "2" | 3 => "3" | 4 => "4" | 5 => "5"
  | 6 => "6" | 7 => "7" | 8 => "8" | 9 => "9" | 10 => "a" | 11 => "b"
  | 12 => "c" | 13 => "d" | 14 => "e" | _ => "f"
  end%char.

Definition escape_char (c : ascii) : string :=
  let n := nat_of_ascii c in
  if (n =? 34)%nat then String "\" (String dquote "")
  else if (n =? 92)%nat then "\\"
  else if (n =? 8)%nat then "\b"
  else if (n =? 9)%nat then "\t"
  else if (n =? 10)%nat then "\n"
  else if (n =? 12)%nat then "\f"
  else if (n =? 13)%nat then "\r"
  else if (n <? 32)%nat
       then "\u00" ++ String (hex_digit (n / 16)) (String (hex_digit (n mod 16)) "")
       else String c "".

Fixpoint escape (s : string) : string :=
  match s with
  | EmptyString => ""
  | String c rest => escape_char c ++ escape rest
  end.

Definition quote (s : string) : string :=
  String dquote (escape s ++ String dquote "").

Definition number_to_string (n : Z) : string :=
  NilZero.string_of_int (Z.to_int n).

Definition concat_with (sep : string) (xs : list string) : string :=
  join sep (map Some xs).

(** [ser indent v]: the text of [v] when it is written at indentation
    [indent]; [None] is the [undefined] that makes the enclosing object
    drop the property (an array writes [null] in its place). *)
Fixpoint ser (indent : string) (v : value) : option string :=
  let inner := indent ++ "  " in
  match v with
  | Undefined => None
  | Bool b => Some (if b then "true" else "false")
  | Num n => Some (number_to_string n)
  | Str s => Some (quote s)
  | Arr items =>
      match items with
      | [] => Some "[]"
      | _ =>
          let parts := map (fun x => ser inner x ?? "null") items in
          Some ("[" ++ LF ++ inner
                    ++ concat_with ("," ++ LF ++ inner) parts
                    ++ LF ++ indent ++ "]")
      end
  | Obj props =>
      let parts :=
        flat_map
          (fun kv =>
             match ser inner (snd kv) with
             | Some text => [quote (fst kv) ++ ": " ++ text]
             | None => []
             end) props in
      match parts with
      | [] => Some "{}"
      | _ =>
          Some ("{" ++ LF ++ inner
                    ++ concat_with ("," ++ LF ++ inner) parts
                    ++ LF ++ indent ++ "}")
      end
  end.

Definition stringify (v : value) : option string := ser "" v.

End Js.

(** ** Regular expressions

    A backtracking matcher in continuation-passing style, the way ECMAScript
    defines [RegExp.prototype.exec]: a pattern is run against the rest of the
    input with the captures found so far and a continuation that stands for
    what follows it.  An alternative or a repetition that fails leaves the
    captures as they were. *)

Module Regex.

Inductive re : Type :=
| Eps
| Chr (accept : ascii -> bool)
| Seq (a b : re)
| Alt (a b : re)
| Star (greedy : bool) (a : re)
| Group (index : nat) (a : re)
| Eol.

(** [a+], [a?] and a literal text *)
Definition Plus (a : re) : re := Seq a (Star true a).
Definition Opt (a : re) : re := Alt a Eps.

Fixpoint Lit (accept : ascii -> ascii -> bool) (text : string) : re :=
  match text with
  | EmptyString => Eps
  | String c rest => Seq (Chr (accept c)) (Lit accept rest)
  end.

(** The captures, latest first: group number and captured text. *)
Definition captures : Type := list (nat * string).

Fixpoint capture (c : captures) (i : nat) : option string :=
  match c with
  | [] => None
  | (j, text) :: rest => if Nat.eqb j i then Some text else capture rest i
  end.

Definition cont : Type := string -> captures -> option captures.

Definition orelse (x : option captures) (y : option captures) : option captures :=
  match x with
  | Some c => Some c
  | None => y
  end.

(** [matcher a k s c] matches [a] at the start of [s], then [k] on what is
    left.  An iteration of a star that consumes nothing is refused, as the
    language says, so a star needs at most [length s] iterations. *)
Fixpoint matcher (a : re) (k : cont) (s : string) (c : captures) {struct a}
  : option captures :=
  match a with
  | Eps => k s c
  | Chr accept =>
      match s with
      | String x rest => if accept x then k rest c else None
      | EmptyString => None
      end
  | Seq a1 a2 => matcher a1 (matcher a2 k) s c
  | Alt a1 a2 => orelse (matcher a1 k s c) (matcher a2 k s c)
  | Star greedy a1 =>
      (fix loop (fuel : nat) (s : string) (c : captures) {struct fuel}
         : option captures :=
         match fuel with
         | O => k s c
         | S fuel' =>
             let again :=
               matcher a1
                 (fun s' c' =>
                    if (String.length s' <? String.length s)%nat
                    then loop fuel' s' c'
                    else None) s c in
             if greedy then orelse again (k s c) else orelse (k s c) again
         end) (S (String.length s)) s c
  | Group i a1 =>
      matcher a1
        (fun s' c' =>
           k s' ((i, substring 0 (String.length s - String.length s') s) :: c'))
        s c
  | Eol =>
      match s with
      | EmptyString => k s c
      | String _ _ => None
      end
  end.

(** [re.exec(s)] for a pattern that starts with [^]: only a match at index
    0 can succeed. *)
Definition exec (a : re) (s : string) : option captures :=
  matcher a (fun _ c => Some c) s [].

(** *** Character classes *)

Definition code (x : ascii) : nat := nat_of_ascii x.

(** [\s]: tab, line feed, vertical tab, form feed, carriage return,
    space and no-break space (the white space of the range 0..255). *)
Definition space (x : ascii) : bool :=
  let n := code x in
  ((9 <=? n) && (n <=? 13))%nat || (n =? 32)%nat || (n =? 160)%nat.

(** [\S] *)
Definition non_space (x : ascii) : bool := negb (space x).

(** [\d] *)
Definition digit (x : ascii) : bool :=
  let n := code x in ((48 <=? n) && (n <=? 57))%nat.

(** [.]: anything but a line terminator *)
Definition dot (x : ascii) : bool :=
  let n := code x in negb ((n =? 10)%nat || (n =? 13)%nat).

Definition upper (x : ascii) : nat :=
  let n := code x in
  if ((97 <=? n) && (n <=? 122))%nat then n - 32 else n.

(** a literal character under the [i] flag *)
Definition ichar (x y : ascii) : bool := (upper x =? upper y)%nat.

End Regex.

(** ** What the reporter receives from Vitest and from Node *)

(** [TestError]: the message, and the stack when there is one. *)
Record TestError : Type := {
  message : string;
  stack : option string
}.

(** [TestResult]: the native state and, for a failed test, its errors. *)
Record TestResult : Type := {
  state : string;
  errors : list TestError
}.

(** The part of [TestDiagnostic] the reporter reads. *)
Record TestDiagnostic : Type := {
  duration : Z;
  retryCount : Z;
  flaky : bool
}.

Record TestModule : Type := {
  moduleId : string
}.

(** [TestCase]: [diagnostic] and [result] stand for the values the methods
    [diagnostic()] and [result()] return. *)
Record TestCase : Type := {
  fullName : string;
  diagnostic : option TestDiagnostic;
  result : TestResult;
  module : TestModule
}.

(** The functions of [node:path] and [node:fs] the reporter calls.
    [path.resolve] reads the working directory of the process and throws
    when that is gone; the three functions of [fs] answer as the file system
    of the run does. *)
Record Host : Type := {
  path_resolve : string -> Exn string;
  path_join : string -> string -> string;
  fs_existsSync : string -> bool;
  fs_mkdirSync : string -> Exn unit;
  fs_writeFileSync : string -> string -> Exn unit
}.

(** What a call leaves outside the reporter. *)
Inductive Effect : Type :=
| Mkdir (dir : string)
| WriteFile (path data : string)
| ConsoleLog (line : string)
| ConsoleError (line : string).

(** [console.log(format, ...args)]: each [%s] of the format takes the next
    argument. *)
Fixpoint util_format (format : string) (args : list string) : string :=
  match format with
  | String "%" (String "s" rest) =>
      match args with
      | a :: args' => a ++ util_format rest args'
      | [] => String "%" (String "s" (util_format rest []))
      end
  | String c rest => String c (util_format rest args)
  | EmptyString => ""
  end.

(** A string argument of [%s]; [undefined] prints as its name. *)
Definition format_arg (x : option string) : string := x ?? "undefined".

(** ** The report ([types/ctrf]) *)

Inductive CtrfTestState : Type :=
| Passed | Failed | Skipped | Pending | Other.

(** The string a [CtrfTestState] is. *)
Definition state_name (s : CtrfTestState) : string :=
  match s with
  | Passed => "passed"
  | Failed => "failed"
  | Skipped => "skipped"
  | Pending => "pending"
  | Other => "other"
  end.

Record Summary : Type := {
  tests : Z;
  passed : Z;
  failed : Z;
  pending : Z;
  skipped : Z;
  other : Z;
  start : Z;
  stop : Z
}.

(** [CtrfTest] and [CtrfEnvironment] have optional properties: objects. *)
Definition CtrfTest : Type := Js.object.
Definition CtrfEnvironment : Type := Js.object.

(** The one object that is ever stored in [results.environment]: the
    reporter's own [ctrfEnvironment], by reference. *)
Inductive EnvironmentRef : Type :=
| ThisCtrfEnvironment.

(** [CtrfReport], its [results] flattened. *)
Record CtrfReport : Type := {
  results_tool_name : string;
  results_summary : Summary;
  results_tests : list CtrfTest;
  results_environment : option EnvironmentRef
}.

Record ReporterConfigOptions : Type := {
  outputFile : option string;
  outputDir : option string;
  minimal : option bool;
  testType : option string;
  appName : option string;
  appVersion : option string;
  osPlatform : option string;
  osRelease : option string;
  osVersion : option string;
  buildName : option string;
  buildNumber : option string;
  buildUrl : option string;
  repositoryName : option string;
  repositoryUrl : option string;
  branchName : option string;
  testEnvironment : option string
}.

(** The fields of a [GenerateCtrfReport] instance that change or depend on
    the options. *)
Record GenerateCtrfReport : Type := {
  ctrfReport : CtrfReport;
  ctrfEnvironment : CtrfEnvironment;
  reporterConfigOptions : ReporterConfigOptions;
  filename : string
}.

Definition reporterName : string := "vitest-ctrf-json-reporter".
Definition defaultOutputFile : string := "ctrf-report.json".
Definition defaultOutputDir : string := "ctrf".

(** *** Assignments to fields *)

Definition with_report (this : GenerateCtrfReport) (r : CtrfReport) : GenerateCtrfReport :=
  {| ctrfReport := r;
     ctrfEnvironment := ctrfEnvironment this;
     reporterConfigOptions := reporterConfigOptions this;
     filename := filename this |}.

Definition with_environment (this : GenerateCtrfReport) (e : CtrfEnvironment) : GenerateCtrfReport :=
  {| ctrfReport := ctrfReport this;
     ctrfEnvironment := e;
     reporterConfigOptions := reporterConfigOptions this;
     filename := filename this |}.

Definition with_filename (this : GenerateCtrfReport) (f : string) : GenerateCtrfReport :=
  {| ctrfReport := ctrfReport this;
     ctrfEnvironment := ctrfEnvironment this;
     reporterConfigOptions := reporterConfigOptions this;
     filename := f |}.

Definition with_summary (r : CtrfReport) (s : Summary) : CtrfReport :=
  {| results_tool_name := results_tool_name r;
     results_summary := s;
     results_tests := results_tests r;
     results_environment := results_environment r |}.

Definition with_tests (r : CtrfReport) (ts : list CtrfTest) : CtrfReport :=
  {| results_tool_name := results_tool_name r;
     results_summary := results_summary r;
     results_tests := ts;
     results_environment := results_environment r |}.

Definition with_results_environment (r : CtrfReport) (e : option EnvironmentRef) : CtrfReport :=
  {| results_tool_name := results_tool_name r;
     results_summary := results_summary r;
     results_tests := results_tests r;
     results_environment := e |}.

Definition with_start (s : Summary) (now : Z) : Summary :=
  {| tests := tests s; passed := passed s; failed := failed s;
     pending := pending s; skipped := skipped s; other := other s;
     start := now; stop := stop s |}.

Definition with_stop (s : Summary) (now : Z) : Summary :=
  {| tests := tests s; passed := passed s; failed := failed s;
     pending := pending s; skipped := skipped s; other := other s;
     start := start s; stop := now |}.

(** [summary.tests++] *)
Definition incr_tests (s : Summary) : Summary :=
  {| tests := tests s + 1; passed := passed s; failed := failed s;
     pending := pending s; skipped := skipped s; other := other s;
     start := start s; stop := stop s |}.

(** [summary[ctrfStatus]++] *)
Definition incr_status (s : Summary) (ctrfStatus : CtrfTestState) : Summary :=
  match ctrfStatus with
  | Passed =>
      {| tests := tests s; passed := passed s + 1; failed := failed s;
         pending := pending s; skipped := skipped s; other := other s;
         start := start s; stop := stop s |}
  | Failed =>
      {| tests := tests s; passed := passed s; failed := failed s + 1;
         pending := pending s; skipped := skipped s; other := other s;
         start := start s; stop := stop s |}
  | Pending =>
      {| tests := tests s; passed := passed s; failed := failed s;
         pending := pending s + 1; skipped := skipped s; other := other s;
         start := start s; stop := stop s |}
  | Skipped =>
      {| tests := tests s; passed := passed s; failed := failed s;
         pending := pending s; skipped := skipped s + 1; other := other s;
         start := start s; stop := stop s |}
  | Other =>
      {| tests := tests s; passed := passed s; failed := failed s;
         pending := pending s; skipped := skipped s; other := other s + 1;
         start := start s; stop := stop s |}
  end.

(** [summary[ctrfStatus]] *)
Definition counter (s : Summary) (ctrfStatus : CtrfTestState) : Z :=
  match ctrfStatus with
  | Passed => passed s
  | Failed => failed s
  | Pending => pending s
  | Skipped => skipped s
  | Other => other s
  end.

(** ** The methods the two copies of the class share

    [src/src/generate-report.ts] and [src/unnamed/part_000] have the same
    text for everything in this part. *)

(** [x ?? undefined] *)
Definition or_undefined {A : Type} (x : option A) : option A :=
  match x with
  | Some v => Some v
  | None => None
  end.

(** [x || false] for [x : boolean | undefined] *)
Definition or_false (x : option bool) : bool :=
  match x with
  | Some true => true
  | _ => false
  end.

Definition resolveOptions (reporterOptions : ReporterConfigOptions) : ReporterConfigOptions :=
  {| outputFile := Some (outputFile reporterOptions ?? defaultOutputFile);
     outputDir := Some (outputDir reporterOptions ?? defaultOutputDir);
     minimal := Some (minimal reporterOptions ?? false);
     testType := Some (testType reporterOptions ?? "unit");
     appName := or_undefined (appName reporterOptions);
     appVersion := or_undefined (appVersion reporterOptions);
     osPlatform := or_undefined (osPlatform reporterOptions);
     osRelease := or_undefined (osRelease reporterOptions);
     osVersion := or_undefined (osVersion reporterOptions);
     buildName := or_undefined (buildName reporterOptions);
     buildNumber := or_undefined (buildNumber reporterOptions);
     buildUrl := or_undefined (buildUrl reporterOptions);
     repositoryName := or_undefined (repositoryName reporterOptions);
     repositoryUrl := or_undefined (repositoryUrl reporterOptions);
     branchName := or_undefined (branchName reporterOptions);
     testEnvironment := or_undefined (testEnvironment reporterOptions) |}.

Definition emptyReport : CtrfReport :=
  {| results_tool_name := "vitest";
     results_summary :=
       {| tests := 0; passed := 0; failed := 0; pending := 0;
          skipped := 0; other := 0; start := 0; stop := 0 |};
     results_tests := [];
     results_environment := None |}.

Definition setFilename (this : GenerateCtrfReport) (name : string) : GenerateCtrfReport :=
  if Js.endsWith name ".json"
  then with_filename this name
  else with_filename this (name ++ ".json").

(** The instance once the constructor has assigned its fields and
    normalised the file name. *)
Definition newReporter (reporterOptions : ReporterConfigOptions) : GenerateCtrfReport :=
  let this :=
    {| ctrfReport := emptyReport;
       ctrfEnvironment := Js.empty;
       reporterConfigOptions := resolveOptions reporterOptions;
       filename := defaultOutputFile |} in
  match outputFile (reporterConfigOptions this) with
  | Some name => setFilename this name
  | None => this
  end.

(** [new GenerateCtrfReport(reporterOptions)]: the directory is made when it
    is not there, and a failure to make it is not caught. *)
Definition constructor (host : Host) (reporterOptions : ReporterConfigOptions)
  : Exn (GenerateCtrfReport * list Effect) :=
  let this := newReporter reporterOptions in
  let dir := outputDir (reporterConfigOptions this) ?? defaultOutputDir in
  if negb (fs_existsSync host dir)
  then match fs_mkdirSync host dir with
       | Ok _ => Ok (this, [Mkdir dir])
       | Throw error => Throw error
       end
  else Ok (this, []).

Definition isTestFailed (r : TestResult) : bool :=
  String.eqb (state r) "failed".

Definition mapStatus (vitestResult : TestResult) : CtrfTestState :=
  let s := state vitestResult in
  if String.eqb s "passed" then Passed
  else if String.eqb s "failed" then Failed
  else if String.eqb s "skipped" then Skipped
  else if String.eqb s "pending" then Pending
  else Other.

Definition updateTotalsFromTestResult (this : GenerateCtrfReport) (testCase : TestCase)
  : GenerateCtrfReport :=
  let ctrfStatus := mapStatus (result testCase) in
  let r := ctrfReport this in
  let r := with_summary r (incr_status (results_summary r) ctrfStatus) in
  let r := with_summary r (incr_tests (results_summary r)) in
  with_report this r.

(** [this.ctrfReport.results.tests.push(test)] *)
Definition pushTest (this : GenerateCtrfReport) (test : CtrfTest) : GenerateCtrfReport :=
  with_report this
    (with_tests (ctrfReport this) (results_tests (ctrfReport this) ++ [test])%list).

(** One [if (options.k !== undefined) this.ctrfEnvironment.k = options.k]. *)
Definition setDetail (key : string) (supplied : option string) (e : CtrfEnvironment)
  : CtrfEnvironment :=
  match supplied with
  | Some v => Js.set e key (Js.Str v)
  | None => e
  end.

Definition setEnvironmentDetails (this : GenerateCtrfReport) (o : ReporterConfigOptions)
  : GenerateCtrfReport :=
  let e := ctrfEnvironment this in
  let e := setDetail "appName" (appName o) e in
  let e := setDetail "appVersion" (appVersion o) e in
  let e := setDetail "osPlatform" (osPlatform o) e in
  let e := setDetail "osRelease" (osRelease o) e in
  let e := setDetail "osVersion" (osVersion o) e in
  let e := setDetail "buildName" (buildName o) e in
  let e := setDetail "buildNumber" (buildNumber o) e in
  let e := setDetail "buildUrl" (buildUrl o) e in
  let e := setDetail "repositoryName" (repositoryName o) e in
  let e := setDetail "repositoryUrl" (repositoryUrl o) e in
  let e := setDetail "branchName" (branchName o) e in
  let e := setDetail "testEnvironment" (testEnvironment o) e in
  with_environment this e.

Definition hasEnvironmentDetails (environment : CtrfEnvironment) : bool :=
  (0 <? List.length (Js.keys environment))%nat.

Definition onTestRunStart (this : GenerateCtrfReport) (now : Z) : GenerateCtrfReport :=
  let r := ctrfReport this in
  let this := with_report this (with_summary r (with_start (results_summary r) now)) in
  let this := setEnvironmentDetails this (reporterConfigOptions this) in
  if hasEnvironmentDetails (ctrfEnvironment this)
  then with_report this
         (with_results_environment (ctrfReport this) (Some ThisCtrfEnvironment))
  else this.

(** *** The document that is written *)

Definition summary_value (s : Summary) : Js.value :=
  Js.Obj [("tests", Js.Num (tests s)); ("passed", Js.Num (passed s));
          ("failed", Js.Num (failed s)); ("pending", Js.Num (pending s));
          ("skipped", Js.Num (skipped s)); ("other", Js.Num (other s));
          ("start", Js.Num (start s)); ("stop", Js.Num (stop s))].

(** [results.environment], the reference followed. *)
Definition environment_of (this : GenerateCtrfReport) (data : CtrfReport)
  : option CtrfEnvironment :=
  match results_environment data with
  | Some ThisCtrfEnvironment => Some (ctrfEnvironment this)
  | None => None
  end.

(** The report as a value; [environment] was assigned after the literal of
    the constructor, so it is the last property of [results]. *)
Definition report_value (this : GenerateCtrfReport) (data : CtrfReport) : Js.value :=
  Js.Obj
    [("results",
       Js.Obj
         ([("tool", Js.Obj [("name", Js.Str (results_tool_name data))]);
           ("summary", summary_value (results_summary data));
           ("tests", Js.Arr (map Js.Obj (results_tests data)))]
          ++ match environment_of this data with
             | Some e => [("environment", Js.Obj e)]
             | None => []
             end)%list)].

Definition writeReportToFile (host : Host) (this : GenerateCtrfReport) (data : CtrfReport)
  : list Effect :=
  let filePath :=
    path_join host (outputDir (reporterConfigOptions this) ?? defaultOutputDir)
      (filename this) in
  let str := Js.stringify (report_value this data) ?? "undefined" in
  match fs_writeFileSync host filePath (str ++ LF) with
  | Ok _ =>
      [WriteFile filePath (str ++ LF);
       ConsoleLog
         (util_format (reporterName ++ ": successfully written ctrf json to %s/%s")
            [format_arg (outputDir (reporterConfigOptions this)); filename this])]
  | Throw error =>
      [ConsoleError ("Error writing ctrf json report:, " ++ error)]
  end.

Definition onTestRunEnd (host : Host) (this : GenerateCtrfReport) (now : Z)
  : GenerateCtrfReport * list Effect :=
  let r := ctrfReport this in
  let this := with_report this (with_summary r (with_stop (results_summary r) now)) in
  (this, writeReportToFile host this (ctrfReport this)).

(** ** The lifecycle

    The host runner calls the reporter at the start of the run, at each
    completed test case and at the end of the run.  [Date.now()] is an
    argument of the call that reads it. *)

Inductive Call : Type :=
| TestRunStart (now : Z)
| TestCaseResult (testCase : TestCase)
| TestRunEnd (now : Z).

Section Lifecycle.

Variable host : Host.
(** The method of the copy at hand. *)
Variable onTestCaseResult : GenerateCtrfReport -> TestCase -> GenerateCtrfReport.

Definition call (this : GenerateCtrfReport) (c : Call) : GenerateCtrfReport * list Effect :=
  match c with
  | TestRunStart now => (onTestRunStart this now, [])
  | TestCaseResult testCase => (onTestCaseResult this testCase, [])
  | TestRunEnd now => onTestRunEnd host this now
  end.

(** The calls one after the other, with what they leave outside. *)
Fixpoint calls (this : GenerateCtrfReport) (cs : list Call) : GenerateCtrfReport * list Effect :=
  match cs with
  | [] => (this, [])
  | c :: rest =>
      let (this', out) := call this c in
      let (this'', out') := calls this' rest in
      (this'', (out ++ out')%list)
  end.

(** A run from a fresh instance. *)
Definition run (reporterOptions : ReporterConfigOptions) (cs : list Call)
  : GenerateCtrfReport * list Effect :=
  calls (newReporter reporterOptions) cs.

End Lifecycle.

(** ** The copy in [src/src/generate-report.ts] *)

Module GenerateReport.

Definition extractFailureDetails (testCase : TestCase) : Js.object :=
  let testResult := result testCase in
  if isTestFailed testResult then
    let failureDetails := Js.empty in
    let failureDetails :=
      Js.set failureDetails "message"
        (Js.Str (Js.join LF (map (fun error => Some (message error)) (errors testResult)))) in
    let failureDetails :=
      Js.set failureDetails "trace"
        (Js.Str (Js.join (LF ++ LF)
                   (filter Js.truthy (map (fun error => stack error) (errors testResult))))) in
    failureDetails
  else Js.empty.

(** [updateCtrfTestResultsFromTestResult] up to its last statement: the
    object [test] as it is when it is pushed. *)
Definition buildTest (options : ReporterConfigOptions) (testCase : TestCase) : CtrfTest :=
  let test : CtrfTest :=
    [("name", Js.Str (fullName testCase));
     ("duration", Js.Num (option_map duration (diagnostic testCase) ?? 0%Z));
     ("status", Js.Str (state_name (mapStatus (result testCase))))] in
  let test :=
    match minimal options with
    | Some false =>
        let test := Js.set test "message" (Js.get (extractFailureDetails testCase) "message") in
        let test := Js.set test "trace" (Js.get (extractFailureDetails testCase) "trace") in
        let test := Js.set test "rawStatus" (Js.Str (state (result testCase))) in
        let test := Js.set test "type" (Js.Str (testType options ?? "unit")) in
        let test := Js.set test "filePath" (Js.Str (moduleId (module testCase))) in
        let test := Js.set test "retries" (Js.Num (option_map retryCount (diagnostic testCase) ?? 0%Z)) in
        let test := Js.set test "flaky" (Js.Bool (or_false (option_map flaky (diagnostic testCase)))) in
        let test := Js.set test "suite" (Js.Str (fullName testCase)) in
        test
    | _ => test
    end in
  test.

Definition updateCtrfTestResultsFromTestResult
  (this : GenerateCtrfReport) (testCase : TestCase) : GenerateCtrfReport :=
  pushTest this (buildTest (reporterConfigOptions this) testCase).

Definition onTestCaseResult (this : GenerateCtrfReport) (testCase : TestCase)
  : GenerateCtrfReport :=
  let this := updateCtrfTestResultsFromTestResult this testCase in
  updateTotalsFromTestResult this testCase.

Definition run (host : Host) := run host onTestCaseResult.

End GenerateReport.

(** ** The copy in [src/unnamed/part_000] *)

(** [xs.find(callback)] with a callback that can throw. *)
Fixpoint Array_find {A : Type} (callback : A -> Exn bool) (xs : list A) : Exn (option A) :=
  match xs with
  | [] => Ok None
  | x :: rest =>
      match callback x with
      | Throw error => Throw error
      | Ok true => Ok (Some x)
      | Ok false => Array_find callback rest
      end
  end.

(** [+digits] for a string of decimal digits *)
Definition to_number (digits : string) : Z :=
  (fix go (acc : Z) (s : string) : Z :=
     match s with
     | EmptyString => acc
     | String c rest => go (10 * acc + (Z.of_nat (nat_of_ascii c) - 48))%Z rest
     end) 0%Z digits.

Module Part000.

Import Regex.

Record Frame : Type := {
  file : option string;
  lineNumber : option Z
}.

Infix ";;" := Seq (at level 61, right associativity).

(** [[^\\/]] *)
Definition no_slash (x : ascii) : bool :=
  negb ((code x =? 92)%nat || (code x =? 47)%nat).

(** [/^\s*at (?:((?:\[object object\])?[^\\/]+(?: \[as \S+\])?) )?\(?(.*?):(\d+)(?::(\d+))?\)?\s*$/i] *)
Definition nodeRe : re :=
  Star true (Chr space) ;;
  Lit ichar "at " ;;
  Opt (Group 1 (Opt (Lit ichar "[object object]") ;;
                Plus (Chr no_slash) ;;
                Opt (Lit ichar " [as " ;; Plus (Chr non_space) ;; Lit ichar "]")) ;;
       Lit ichar " ") ;;
  Opt (Lit ichar "(") ;;
  Group 2 (Star false (Chr dot)) ;;
  Lit ichar ":" ;;
  Group 3 (Plus (Chr digit)) ;;
  Opt (Lit ichar ":" ;; Group 4 (Plus (Chr digit))) ;;
  Opt (Lit ichar ")") ;;
  Star true (Chr space) ;;
  Eol.

(** [x || null] and the test [x ? ... : null] on a capture: an empty
    capture counts as none. *)
Definition non_empty (x : option string) : option string :=
  match x with
  | Some s => if String.eqb s "" then None else Some s
  | None => None
  end.

(** The body of the [reduce]: one line of the trace. *)
Definition parseLine (stack : list Frame) (line : string) : list Frame :=
  match exec nodeRe line with
  | Some parts =>
      (stack ++ [{| file := non_empty (capture parts 2);
                    lineNumber := option_map to_number (non_empty (capture parts 3)) |}])%list
  | None => stack
  end.

Definition parseStackTrace (stackString : string) : list Frame :=
  let lines := Js.split_lines stackString in
  fold_left parseLine lines [].

(** The callback of [find]. *)
Definition isTestFrame (host : Host) (testFilePath : string) (frame : Frame) : Exn bool :=
  match file frame with
  | None => Ok false
  | Some frameFile =>
      match path_resolve host frameFile with
      | Throw error => Throw error
      | Ok normalizedFrameFile =>
          match path_resolve host testFilePath with
          | Throw error => Throw error
          | Ok normalizedTestFile =>
              Ok (String.eqb normalizedFrameFile normalizedTestFile)
          end
      end
  end.

Definition extractLineNumber (host : Host) (trace : string) (testFilePath : string)
  : option Z :=
  let attempt :=
    let stackFrames := parseStackTrace trace in
    match Array_find (isTestFrame host testFilePath) stackFrames with
    | Throw error => Throw error
    | Ok testFrame =>
        Ok match testFrame with
           | Some frame => lineNumber frame
           | None => None
           end
    end in
  match attempt with
  | Ok line => line
  | Throw _ => None
  end.

Definition extractFailureDetails (host : Host) (testCase : TestCase) : Js.object :=
  let testResult := result testCase in
  if isTestFailed testResult then
    let failureDetails := Js.empty in
    let failureDetails :=
      Js.set failureDetails "message"
        (Js.Str (Js.join LF (map (fun error => Some (message error)) (errors testResult)))) in
    let trace :=
      Js.join (LF ++ LF)
        (filter Js.truthy (map (fun error => stack error) (errors testResult))) in
    let failureDetails := Js.set failureDetails "trace" (Js.Str trace) in
    if negb (String.eqb trace "") && negb (String.eqb (moduleId (module testCase)) "")
    then match extractLineNumber host trace (moduleId (module testCase)) with
         | Some lineNumber => Js.set failureDetails "line" (Js.Num lineNumber)
         | None => failureDetails
         end
    else failureDetails
  else Js.empty.

(** [updateCtrfTestResultsFromTestResult] up to its last statement: the
    object [test] as it is when it is pushed. *)
Definition buildTest (host : Host) (options : ReporterConfigOptions) (testCase : TestCase)
  : CtrfTest :=
  let test : CtrfTest :=
    [("name", Js.Str (fullName testCase));
     ("duration", Js.Num (option_map duration (diagnostic testCase) ?? 0%Z));
     ("status", Js.Str (state_name (mapStatus (result testCase))))] in
  let test :=
    match minimal options with
    | Some false =>
        let failureDetails := extractFailureDetails host testCase in
        let test := Js.set test "message" (Js.get failureDetails "message") in
        let test := Js.set test "trace" (Js.get failureDetails "trace") in
        let test :=
          match Js.get failureDetails "line" with
          | Js.Undefined => test
          | line => Js.set test "line" line
          end in
        let test := Js.set test "rawStatus" (Js.Str (state (result testCase))) in
        let test := Js.set test "type" (Js.Str (testType options ?? "unit")) in
        let test := Js.set test "filePath" (Js.Str (moduleId (module testCase))) in
        let test := Js.set test "retries" (Js.Num (option_map retryCount (diagnostic testCase) ?? 0%Z)) in
        let test := Js.set test "flaky" (Js.Bool (or_false (option_map flaky (diagnostic testCase)))) in
        let test := Js.set test "suite" (Js.Str (fullName testCase)) in
        test
    | _ => test
    end in
  test.

Definition updateCtrfTestResultsFromTestResult
  (host : Host) (this : GenerateCtrfReport) (testCase : TestCase) : GenerateCtrfReport :=
  pushTest this (buildTest host (reporterConfigOptions this) testCase).

Definition onTestCaseResult (host : Host) (this : GenerateCtrfReport) (testCase : TestCase)
  : GenerateCtrfReport :=
  let this := updateCtrfTestResultsFromTestResult host this testCase in
  updateTotalsFromTestResult this testCase.

Definition run (host : Host) := run host (onTestCaseResult host).

End Part000.

(** ** Vocabulary of the properties *)

(** The test cases a sequence of calls completes, in order. *)
Fixpoint completions (cs : list Call) : list TestCase :=
  match cs with
  | [] => []
  | TestCaseResult testCase :: rest => testCase :: completions rest
  | _ :: rest => completions rest
  end.

(** Whether the run was started. *)
Fixpoint started (cs : list Call) : bool :=
  match cs with
  | [] => false
  | TestRunStart _ :: _ => true
  | _ :: rest => started rest
  end.

(** [passed + failed + pending + skipped + other] *)
Definition outcomes (s : Summary) : Z :=
  (passed s + failed s + pending s + skipped s + other s)%Z.

(** A report that accounts for [n] completed test cases. *)
Definition accounts_for (r : CtrfReport) (n : nat) : Prop :=
  tests (results_summary r) = Z.of_nat n
  /\ List.length (results_tests r) = n
  /\ outcomes (results_summary r) = Z.of_nat n.

(** One completion, from [before] to [after]: one record more, one test
    more, and one more in the counter of the outcome and in no other. *)
Definition counted_once (before after : GenerateCtrfReport) (testCase : TestCase) : Prop :=
  let s := results_summary (ctrfReport before) in
  let s' := results_summary (ctrfReport after) in
  (exists test,
      results_tests (ctrfReport after) = (results_tests (ctrfReport before) ++ [test])%list)
  /\ tests s' = (tests s + 1)%Z
  /\ counter s' (mapStatus (result testCase))
     = (counter s (mapStatus (result testCase)) + 1)%Z
  /\ (forall outcome, outcome <> mapStatus (result testCase) ->
        counter s' outcome = counter s outcome)
  /\ start s' = start s /\ stop s' = stop s.

(** The native states [mapStatus] has a case for. *)
Definition recognized : list string := ["passed"; "failed"; "skipped"; "pending"].

(** The five outcomes of the report format. *)
Definition vocabulary : list string :=
  ["passed"; "failed"; "skipped"; "pending"; "other"].

(** A host for the examples: a POSIX file system with the working directory
    [/work].  The paths of the examples are already normalised, so that
    [path.resolve] only has to make a relative path absolute and [path.join]
    only has to put the separator. *)
Definition exampleHost (writable : bool) : Host :=
  {| path_resolve :=
       fun p =>
         match p with
         | String "/" _ => Ok p
         | _ => Ok ("/work/" ++ p)
         end;
     path_join := fun dir name => dir ++ "/" ++ name;
     fs_existsSync := fun _ => true;
     fs_mkdirSync := fun _ => Ok tt;
     fs_writeFileSync :=
       fun path _ =>
         if writable then Ok tt
         else Throw ("Error: EACCES: permission denied, open '" ++ path ++ "'") |}.

(** The options of a reporter constructed with [{}]. *)
Definition noOptions : ReporterConfigOptions :=
  {| outputFile := None; outputDir := None; minimal := None; testType := None;
     appName := None; appVersion := None; osPlatform := None; osRelease := None;
     osVersion := None; buildName := None; buildNumber := None; buildUrl := None;
     repositoryName := None; repositoryUrl := None; branchName := None;
     testEnvironment := None |}.

Definition testCaseOf (name file nativeState : string) (errs : list TestError) : TestCase :=
  {| fullName := name;
     diagnostic := Some {| duration := 5; retryCount := 0; flaky := false |};
     result := {| state := nativeState; errors := errs |};
     module := {| moduleId := file |} |}.

(** The optional properties of a record. *)
Definition optionalFields : list string :=
  ["message"; "trace"; "line"; "rawStatus"; "type"; "filePath"; "retries";
   "flaky"; "suite"].

(** The properties a record always has. *)
Definition requiredFields : list string := ["name"; "duration"; "status"].

(** Whether a value is the empty string. *)
Definition is_empty_string (v : Js.value) : bool :=
  match v with
  | Js.Str s => String.eqb s ""
  | _ => false
  end.

(** A passed test case of the file [/t/f.test.ts]. *)
Definition passedCase : TestCase :=
  testCaseOf "adds numbers" "/t/f.test.ts" "passed" [].

(** A failed test case with one error that has no stack. *)
Definition failedCase : TestCase :=
  testCaseOf "subtracts" "/t/f.test.ts" "failed"
    [{| message := "expected 1 to be 2"; stack := None |}].

(** A run of two tests, one passed and one failed. *)
Definition twoTests : list Call :=
  [TestRunStart 1000; TestCaseResult passedCase; TestCaseResult failedCase;
   TestRunEnd 2000].

(** The options [{ minimal: true }]. *)
Definition minimalOptions : ReporterConfigOptions :=
  {| outputFile := None; outputDir := None; minimal := Some true; testType := None;
     appName := None; appVersion := None; osPlatform := None; osRelease := None;
     osVersion := None; buildName := None; buildNumber := None; buildUrl := None;
     repositoryName := None; repositoryUrl := None; branchName := None;
     testEnvironment := None |}.

(** A record with the required properties and none of the optional ones. *)
Definition only_required (test : CtrfTest) : Prop :=
  Js.keys test = requiredFields
  /\ Forall (fun key => Js.has test key = false) optionalFields.

(** From [before] to [after] one record was appended, its [message] and
    [trace] are [undefined], and it is written as if it had neither. *)
Definition details_undefined (before after : GenerateCtrfReport) : Prop :=
  exists test,
    results_tests (ctrfReport after) = (results_tests (ctrfReport before) ++ [test])%list
    /\ Js.get test "message" = Js.Undefined
    /\ Js.get test "trace" = Js.Undefined
    /\ forall indent,
         Js.ser indent (Js.Obj test)
         = Js.ser indent (Js.Obj (Js.delete (Js.delete test "message") "trace")).

(** The texts [xs] one after the other with [sep] between two of them. *)
Definition separated (sep : string) (xs : list string) : string :=
  match xs with
  | [] => ""
  | x :: rest => fold_left (fun text y => text ++ sep ++ y) rest x
  end.

(** The stacks of the errors that have the property [stack], in order. *)
Definition stacks_present (errs : list TestError) : list string :=
  flat_map (fun error => match stack error with Some s => [s] | None => [] end) errs.

(** The stacks of the errors that have a stack, in order: a stack that is
    there and has a text in it. *)
Definition stacks_with_text (errs : list TestError) : list string :=
  filter (fun s => negb (String.eqb s "")) (stacks_present errs).

(** Two errors: [A], with a stack, and [B], with none. *)
Definition errorsAB : list TestError :=
  [{| message := "A"; stack := Some "at x (/t/f.js:10:2)" |};
   {| message := "B"; stack := None |}].

(** The same with an empty stack for [B]. *)
Definition errorsAB_empty : list TestError :=
  [{| message := "A"; stack := Some "at x (/t/f.js:10:2)" |};
   {| message := "B"; stack := Some "" |}].

(** A frame of the test's own file: its file and the file of the test
    resolve to the same absolute path. *)
Definition own_frame (host : Host) (testFilePath : string) (frame : Part000.Frame) : Prop :=
  exists frameFile absolute,
    Part000.file frame = Some frameFile
    /\ path_resolve host frameFile = Ok absolute
    /\ path_resolve host testFilePath = Ok absolute.

(** A frame of no file, or of a file that resolves to another path. *)
Definition foreign_frame (host : Host) (testFilePath : string) (frame : Part000.Frame) : Prop :=
  Part000.file frame = None
  \/ exists frameFile absolute absolute',
       Part000.file frame = Some frameFile
       /\ path_resolve host frameFile = Ok absolute
       /\ path_resolve host testFilePath = Ok absolute'
       /\ absolute <> absolute'.

(** A frame at which the resolution of a path throws. *)
Definition raising_frame (host : Host) (testFilePath : string) (frame : Part000.Frame) : Prop :=
  exists frameFile,
    Part000.file frame = Some frameFile
    /\ ((exists error, path_resolve host frameFile = Throw error)
        \/ (exists absolute error,
               path_resolve host frameFile = Ok absolute
               /\ path_resolve host testFilePath = Throw error)).

(** The frame, if any, a line of the trace is read as. *)
Definition frame_of_line (line : string) : list Part000.Frame :=
  Part000.parseLine [] line.

(** A trace with a frame of another file at line 7, then a frame of the
    test's own file at line 42. *)
Definition traceOwn42 : string :=
  "Error: boom" ++ LF
  ++ "    at helper (/other/file.ts:7:3)" ++ LF
  ++ "    at /t/f.test.ts:42:5".

(** A report with the property [line] taken out of every record. *)
Definition without_line (r : CtrfReport) : CtrfReport :=
  with_tests r (map (fun test => Js.delete test "line") (results_tests r)).

(** Whether the copy of [part_000] finds no line for a test case. *)
Definition no_line (host : Host) (testCase : TestCase) : Prop :=
  Js.get (Part000.extractFailureDetails host testCase) "line" = Js.Undefined.

(** A failed test of [/t/f.test.ts] whose trace has a frame of that file. *)
Definition failedAt42 : TestCase :=
  testCaseOf "fails" "/t/f.test.ts" "failed"
    [{| message := "boom"; stack := Some traceOwn42 |}].

(** The environment options as they were supplied, under the names the
    environment block gives them. *)
Definition supplied (o : ReporterConfigOptions) : list (string * option string) :=
  [("appName", appName o); ("appVersion", appVersion o);
   ("osPlatform", osPlatform o); ("osRelease", osRelease o);
   ("osVersion", osVersion o); ("buildName", buildName o);
   ("buildNumber", buildNumber o); ("buildUrl", buildUrl o);
   ("repositoryName", repositoryName o); ("repositoryUrl", repositoryUrl o);
   ("branchName", branchName o); ("testEnvironment", testEnvironment o)].

(** The block that has exactly the entries of a table that have a value,
    with their values, in the order of the table. *)
Definition block_of (table : list (string * option string)) : CtrfEnvironment :=
  flat_map
    (fun kv => match snd kv with Some v => [(fst kv, Js.Str v)] | None => [] end)
    table.

(** The block that has exactly the supplied options, with their values. *)
Definition suppliedEnvironment (o : ReporterConfigOptions) : CtrfEnvironment :=
  block_of (supplied o).

(** Whether at least one environment option was supplied. *)
Definition any_supplied (o : ReporterConfigOptions) : bool :=
  existsb (fun kv => match snd kv with Some _ => true | None => false end) (supplied o).

(** The options [{ appName: 'shop', branchName: 'main' }]. *)
Definition shopOptions : ReporterConfigOptions :=
  {| outputFile := None; outputDir := None; minimal := None; testType := None;
     appName := Some "shop"; appVersion := None; osPlatform := None; osRelease := None;
     osVersion := None; buildName := None; buildNumber := None; buildUrl := None;
     repositoryName := None; repositoryUrl := None; branchName := Some "main";
     testEnvironment := None |}.

(** What the instance holds of the environment, before the run has started
    and after: the options are the resolved ones; before, the block is empty
    and the report has none; after, the block has the supplied options and the
    report refers to it when one was supplied. *)
Definition environment_state
  (o : ReporterConfigOptions) (after_start : bool) (this : GenerateCtrfReport) : Prop :=
  reporterConfigOptions this = resolveOptions o
  /\ if after_start
     then ctrfEnvironment this = suppliedEnvironment o
          /\ results_environment (ctrfReport this)
             = (if any_supplied o then Some ThisCtrfEnvironment else None)
     else ctrfEnvironment this = Js.empty
          /\ results_environment (ctrfReport this) = None.

(** The block a report must show for the options. *)
Definition expected_environment (o : ReporterConfigOptions) : option CtrfEnvironment :=
  if any_supplied o then Some (suppliedEnvironment o) else None.

(** How many of the test cases have the given outcome. *)
Definition tally (outcome : CtrfTestState) (tcs : list TestCase) : Z :=
  Z.of_nat
    (List.length
       (filter (fun tc => String.eqb (state_name (mapStatus (result tc))) (state_name outcome))
          tcs)).

(** From [before] to [after] nothing changed but [summary.stop], which is
    [now]. *)
Definition only_stop_changed (before after : GenerateCtrfReport) (now : Z) : Prop :=
  let s := results_summary (ctrfReport before) in
  let s' := results_summary (ctrfReport after) in
  ctrfEnvironment after = ctrfEnvironment before
  /\ reporterConfigOptions after = reporterConfigOptions before
  /\ filename after = filename before
  /\ results_tool_name (ctrfReport after) = results_tool_name (ctrfReport before)
  /\ results_tests (ctrfReport after) = results_tests (ctrfReport before)
  /\ results_environment (ctrfReport after) = results_environment (ctrfReport before)
  /\ tests s' = tests s
  /\ (forall outcome, counter s' outcome = counter s outcome)
  /\ start s' = start s
  /\ stop s' = now.

(** The text that is written for an instance: its report, indented by two
    spaces, and a line feed. *)
Definition written_text (this : GenerateCtrfReport) : string :=
  (Js.stringify (report_value this (ctrfReport this)) ?? "undefined") ++ LF.

(** What a run end leaves outside when it is called on [ended] made of
    [before]: after a write that failed, one line of error with the cause and
    no file; after a write that succeeded, the file and one line that names
    the directory and the file. *)
Definition write_outcome
  (host : Host) (dir : string) (ended : GenerateCtrfReport) (out : list Effect) : Prop :=
  let path := path_join host dir (filename ended) in
  match fs_writeFileSync host path (written_text ended) with
  | Throw error => out = [ConsoleError ("Error writing ctrf json report:, " ++ error)]
  | Ok _ =>
      out = [WriteFile path (written_text ended);
             ConsoleLog
               ("vitest-ctrf-json-reporter: successfully written ctrf json to "
                  ++ dir ++ "/" ++ filename ended)]
  end.

(** The write boundary of [onTestRunEnd]: it returns, with a report in
    which only [summary.stop] changed, whatever the write did. *)
Definition write_boundary
  (host : Host) (before : GenerateCtrfReport) (dir : string) (now : Z) : Prop :=
  only_stop_changed before (fst (onTestRunEnd host before now)) now
  /\ write_outcome host dir (fst (onTestRunEnd host before now))
       (snd (onTestRunEnd host before now)).

(** The outcome of a run that was never started: [tcs] completed, then the
    run ended at [now]. *)
Definition unstarted_report
  (host : Host) (buildTest : ReporterConfigOptions -> TestCase -> CtrfTest)
  (o : ReporterConfigOptions) (tcs : list TestCase) (now : Z)
  (outcome : GenerateCtrfReport * list Effect) : Prop :=
  let this := fst outcome in
  let s := results_summary (ctrfReport this) in
  start s = 0%Z
  /\ stop s = now
  /\ environment_of this (ctrfReport this) = None
  /\ report_value this (ctrfReport this)
     = Js.Obj
         [("results",
            Js.Obj
              [("tool", Js.Obj [("name", Js.Str "vitest")]);
               ("summary", summary_value s);
               ("tests", Js.Arr (map Js.Obj (results_tests (ctrfReport this))))])]
  /\ results_tests (ctrfReport this) = map (buildTest (resolveOptions o)) tcs
  /\ accounts_for (ctrfReport this) (List.length tcs)
  /\ (forall outcome, counter s outcome = tally outcome tcs)
  /\ write_outcome host (outputDir o ?? defaultOutputDir) this (snd outcome).

(** Two instances with the same records, counters and stop. *)
Definition same_results (this this' : GenerateCtrfReport) : Prop :=
  let s := results_summary (ctrfReport this) in
  let s' := results_summary (ctrfReport this') in
  results_tests (ctrfReport this) = results_tests (ctrfReport this')
  /\ tests s = tests s'
  /\ (forall outcome, counter s outcome = counter s' outcome)
  /\ stop s = stop s'.

(** [onTestCaseResult] of a copy that builds its records with [buildTest]:
    push the record, then count it. *)
Definition completed
  (buildTest : ReporterConfigOptions -> TestCase -> CtrfTest)
  (this : GenerateCtrfReport) (testCase : TestCase) : GenerateCtrfReport :=
  updateTotalsFromTestResult
    (pushTest this (buildTest (reporterConfigOptions this) testCase)) testCase.

(** The assignments of [setEnvironmentDetails], for a table of options. *)
Definition fill (table : list (string * option string)) (e : CtrfEnvironment)
  : CtrfEnvironment :=
  fold_left (fun e kv => setDetail (fst kv) (snd kv) e) table e.

(** Two instances that differ at most in their records. *)
Definition same_but_records (this this' : GenerateCtrfReport) : Prop :=
  results_tool_name (ctrfReport this) = results_tool_name (ctrfReport this')
  /\ results_summary (ctrfReport this) = results_summary (ctrfReport this')
  /\ results_environment (ctrfReport this) = results_environment (ctrfReport this')
  /\ ctrfEnvironment this = ctrfEnvironment this'
  /\ reporterConfigOptions this = reporterConfigOptions this'
  /\ filename this = filename this'.

(** The file name the constructor settles on for the options. *)
Definition normalized_name (o : ReporterConfigOptions) : string :=
  let name := outputFile o ?? defaultOutputFile in
  if Js.endsWith name ".json" then name else name ++ ".json".

(** How many of the test cases have a native state that [p] accepts. *)
Definition count_state (p : string -> bool) (tcs : list TestCase) : Z :=
  Z.of_nat (List.length (filter (fun tc => p (state (result tc))) tcs)).

(** A native state [mapStatus] has no case for. *)
Definition unrecognized (s : string) : bool :=
  negb (existsb (String.eqb s) recognized).

(** The time of the last run start among the calls, [t] when there is none. *)
Fixpoint last_start (cs : list Call) (t : Z) : Z :=
  match cs with
  | [] => t
  | TestRunStart now :: rest => last_start rest now
  | _ :: rest => last_start rest t
  end.

(** The time of the last run end among the calls, [t] when there is none. *)
Fixpoint last_stop (cs : list Call) (t : Z) : Z :=
  match cs with
  | [] => t
  | TestRunEnd now :: rest => last_stop rest now
  | _ :: rest => last_stop rest t
  end.

(** How many run ends the calls have. *)
Fixpoint ends (cs : list Call) : nat :=
  match cs with
  | [] => 0
  | TestRunEnd _ :: rest => S (ends rest)
  | _ :: rest => ends rest
  end.

(** The lines printed on the console among the effects. *)
Definition console_lines (out : list Effect) : list Effect :=
  filter (fun e => match e with ConsoleLog _ | ConsoleError _ => true | _ => false end) out.

(** The files written among the effects. *)
Definition files_written (out : list Effect) : list Effect :=
  filter (fun e => match e with WriteFile _ _ => true | _ => false end) out.

(** An effect a run may leave: a line on the console, or a write to the one
    file [path]; never a directory made. *)
Definition run_effect (path : string) (e : Effect) : Prop :=
  match e with
  | WriteFile p _ => p = path
  | ConsoleLog _ | ConsoleError _ => True
  | Mkdir _ => False
  end.

(** The required properties of the record of a test case. *)
Definition required_of (testCase : TestCase) (test : CtrfTest) : Prop :=
  firstn 3 (Js.keys test) = requiredFields
  /\ Js.get test "name" = Js.Str (fullName testCase)
  /\ Js.get test "duration"
     = Js.Num (match diagnostic testCase with Some d => duration d | None => 0%Z end)
  /\ Js.get test "status" = Js.Str (state_name (mapStatus (result testCase))).

(** The optional properties, [line] apart, of the record of a test case
    when minimal mode is off, and the order of all its properties. *)
Definition optional_of (o : ReporterConfigOptions) (testCase : TestCase) (test : CtrfTest)
  : Prop :=
  Js.get test "rawStatus" = Js.Str (state (result testCase))
  /\ Js.get test "type" = Js.Str (testType o ?? "unit")
  /\ Js.get test "filePath" = Js.Str (moduleId (module testCase))
  /\ Js.get test "retries"
     = Js.Num (match diagnostic testCase with Some d => retryCount d | None => 0%Z end)
  /\ Js.get test "flaky"
     = Js.Bool (match diagnostic testCase with Some d => flaky d | None => false end)
  /\ Js.get test "suite" = Js.get test "name"
  /\ Js.keys test
     = (["name"; "duration"; "status"; "message"; "trace"]
          ++ (if Js.has test "line" then ["line"] else [])
          ++ ["rawStatus"; "type"; "filePath"; "retries"; "flaky"; "suite"])%list.

(** The options [{ outputFile: 'report' }]. *)
Definition reportOptions : ReporterConfigOptions :=
  {| outputFile := Some "report"; outputDir := Some "out"; minimal := None;
     testType := None;
     appName := None; appVersion := None; osPlatform := None; osRelease := None;
     osVersion := None; buildName := None; buildNumber := None; buildUrl := None;
     repositoryName := None; repositoryUrl := None; branchName := None;
     testEnvironment := None |}.


(** [matches a s c s' c']: the pattern [a] can match at the start of [s],
    from the captures [c], leaving [s'] of the input and the captures [c'].
    This is every way the pattern can match, without the order in which the
    matcher tries them. *)
Inductive matches : Regex.re -> string -> Regex.captures -> string -> Regex.captures -> Prop :=
| matches_eps s c : matches Regex.Eps s c s c
| matches_chr accept x rest c :
    accept x = true -> matches (Regex.Chr accept) (String x rest) c rest c
| matches_seq a b s c s1 c1 s2 c2 :
    matches a s c s1 c1 -> matches b s1 c1 s2 c2 -> matches (Regex.Seq a b) s c s2 c2
| matches_alt_left a b s c s' c' :
    matches a s c s' c' -> matches (Regex.Alt a b) s c s' c'
| matches_alt_right a b s c s' c' :
    matches b s c s' c' -> matches (Regex.Alt a b) s c s' c'
| matches_star_stop greedy a s c : matches (Regex.Star greedy a) s c s c
| matches_star_more greedy a s c s1 c1 s2 c2 :
    matches a s c s1 c1 ->
    matches (Regex.Star greedy a) s1 c1 s2 c2 ->
    matches (Regex.Star greedy a) s c s2 c2
| matches_group i a s c s' c' :
    matches a s c s' c' ->
    matches (Regex.Group i a) s c s'
      ((i, substring 0 (String.length s - String.length s') s) :: c')
| matches_eol c : matches Regex.Eol "" c "" c.

(** The numbers of the groups of a pattern. *)
Fixpoint groups (a : Regex.re) : list nat :=
  match a with
  | Regex.Seq a1 a2 | Regex.Alt a1 a2 => (groups a1 ++ groups a2)%list
  | Regex.Star _ a1 => groups a1
  | Regex.Group i a1 => i :: groups a1
  | _ => []
  end.

(** Every character of the text is accepted. *)
Fixpoint all_chars (accept : ascii -> bool) (text : string) : bool :=
  match text with
  | EmptyString => true
  | String x rest => accept x && all_chars accept rest
  end.

(** The loop of a star of the matcher, by its fuel. *)
Definition star_loop
  (step : Regex.cont -> Regex.cont) (greedy : bool) (k : Regex.cont)
  : nat -> string -> Regex.captures -> option Regex.captures :=
  fix loop (fuel : nat) (s : string) (c : Regex.captures) {struct fuel}
    : option Regex.captures :=
    match fuel with
    | O => k s c
    | S fuel' =>
        let again :=
          step
            (fun s' c' =>
               if (String.length s' <? String.length s)%nat
               then loop fuel' s' c'
               else None) s c in
        if greedy then Regex.orelse again (k s c) else Regex.orelse (k s c) again
    end.

(** A frame as the parser makes them: with a line number that is not
    negative, and with a file that is not the empty string. *)
Definition proper_frame (frame : Part000.Frame) : Prop :=
  (exists n, Part000.lineNumber frame = Some n /\ (0 <= n)%Z)
  /\ Part000.file frame <> Some "".


(** Whether a value is a string. *)
Definition is_string (v : Js.value) : bool :=
  match v with
  | Js.Str _ => true
  | _ => false
  end.

(** A line that begins as a stack frame does: white space, the word [at]
    in either case, and a space. *)
Definition begins_with_at (line : string) : Prop :=
  exists blanks x y rest,
    line = blanks ++ String x (String y (String " " rest))
    /\ all_chars Regex.space blanks = true
    /\ Regex.ichar "a" x = true
    /\ Regex.ichar "t" y = true.


(** ** Properties *)

(** *** What a sequence of calls does to the report, for either copy *)

Section Reporter.

Variable host : Host.
(** How the copy at hand builds the record of a test case. *)
Variable buildTest : ReporterConfigOptions -> TestCase -> CtrfTest.

Lemma tally_cons (outcome : CtrfTestState) (tc : TestCase) (tcs : list TestCase) :
  tally outcome (tc :: tcs)
  = ((if String.eqb (state_name (mapStatus (result tc))) (state_name outcome) then 1 else 0)
     + tally outcome tcs)%Z.
Proof.
  unfold tally. cbn [filter].
  destruct (String.eqb _ _); cbn [Datatypes.length]; lia.
Qed.

Lemma calls_app (this : GenerateCtrfReport) (cs1 cs2 : list Call) :
  calls host (completed buildTest) this (cs1 ++ cs2)
  = (fst (calls host (completed buildTest) (fst (calls host (completed buildTest) this cs1)) cs2),
     (snd (calls host (completed buildTest) this cs1)
        ++ snd (calls host (completed buildTest) (fst (calls host (completed buildTest) this cs1)) cs2))%list).
Proof.
  revert this. induction cs1 as [|c cs1 IH]; intros this; simpl.
  - destruct (calls host (completed buildTest) this cs2); reflexivity.
  - destruct (call host (completed buildTest) this c) as [this' out] eqn:Hc.
    rewrite IH.
    destruct (calls host (completed buildTest) this' cs1) as [this1 out1]; simpl.
    destruct (calls host (completed buildTest) this1 cs2) as [this2 out2]; simpl.
    now rewrite app_assoc.
Qed.

Lemma setEnvironmentDetails_keeps (this : GenerateCtrfReport) (o : ReporterConfigOptions) :
  reporterConfigOptions (setEnvironmentDetails this o) = reporterConfigOptions this
  /\ filename (setEnvironmentDetails this o) = filename this
  /\ ctrfReport (setEnvironmentDetails this o) = ctrfReport this.
Proof. now unfold setEnvironmentDetails. Qed.

Lemma call_keeps_options (this : GenerateCtrfReport) (c : Call) :
  reporterConfigOptions (fst (call host (completed buildTest) this c)) = reporterConfigOptions this
  /\ filename (fst (call host (completed buildTest) this c)) = filename this.
Proof.
  destruct c as [now|testCase|now]; simpl.
  - unfold onTestRunStart.
    destruct (hasEnvironmentDetails _); now simpl.
  - now unfold completed.
  - now unfold onTestRunEnd.
Qed.

Lemma calls_keep_options (cs : list Call) (this : GenerateCtrfReport) :
  reporterConfigOptions (fst (calls host (completed buildTest) this cs)) = reporterConfigOptions this
  /\ filename (fst (calls host (completed buildTest) this cs)) = filename this.
Proof.
  revert this. induction cs as [|c cs IH]; intros this; simpl; [now split|].
  destruct (call host (completed buildTest) this c) as [this' out] eqn:Hc.
  specialize (IH this').
  destruct (calls host (completed buildTest) this' cs) as [this'' out']; simpl in *.
  pose proof (call_keeps_options this c) as Hk. rewrite Hc in Hk; simpl in Hk.
  destruct IH as [-> ->]. exact Hk.
Qed.

(** The records of a sequence of calls: one per completed test case, in the
    order of the calls, after the records that were there. *)
Lemma calls_records (cs : list Call) (this : GenerateCtrfReport) :
  results_tests (ctrfReport (fst (calls host (completed buildTest) this cs)))
  = (results_tests (ctrfReport this)
       ++ map (buildTest (reporterConfigOptions this)) (completions cs))%list.
Proof.
  revert this. induction cs as [|c cs IH]; intros this; simpl.
  - now rewrite app_nil_r.
  - destruct (call host (completed buildTest) this c) as [this' out] eqn:Hc.
    specialize (IH this').
    destruct (calls host (completed buildTest) this' cs) as [this'' out']; simpl in *.
    rewrite IH. clear IH.
    pose proof (call_keeps_options this c) as [Ho _]. rewrite Hc in Ho; simpl in Ho.
    rewrite Ho.
    destruct c as [now|testCase|now]; simpl in Hc; inversion Hc; subst; clear Hc.
    + unfold onTestRunStart. destruct (hasEnvironmentDetails _); reflexivity.
    + unfold completed; simpl. now rewrite <- app_assoc.
    + reflexivity.
Qed.

Lemma incr_status_counter (s : Summary) (outcome outcome' : CtrfTestState) :
  counter (incr_tests (incr_status s outcome)) outcome'
  = (counter s outcome'
     + if String.eqb (state_name outcome) (state_name outcome') then 1 else 0)%Z.
Proof. destruct outcome, outcome'; simpl; lia. Qed.

(** Each counter after a sequence of calls: what it was, plus the completed
    test cases of that outcome. *)
Lemma calls_counter (outcome : CtrfTestState) (cs : list Call) (this : GenerateCtrfReport) :
  counter (results_summary (ctrfReport (fst (calls host (completed buildTest) this cs)))) outcome
  = (counter (results_summary (ctrfReport this)) outcome + tally outcome (completions cs))%Z.
Proof.
  revert this. induction cs as [|c cs IH]; intros this; simpl.
  - unfold tally; simpl; lia.
  - destruct (call host (completed buildTest) this c) as [this' out] eqn:Hc.
    specialize (IH this').
    destruct (calls host (completed buildTest) this' cs) as [this'' out']; simpl in *.
    rewrite IH. clear IH.
    destruct c as [now|testCase|now]; simpl in Hc; inversion Hc; subst; clear Hc.
    + unfold onTestRunStart. destruct (hasEnvironmentDetails _); destruct outcome; reflexivity.
    + unfold completed, updateTotalsFromTestResult; simpl.
      rewrite incr_status_counter, tally_cons. lia.
    + destruct outcome; reflexivity.
Qed.

Lemma calls_tests (cs : list Call) (this : GenerateCtrfReport) :
  tests (results_summary (ctrfReport (fst (calls host (completed buildTest) this cs))))
  = (tests (results_summary (ctrfReport this)) + Z.of_nat (List.length (completions cs)))%Z.
Proof.
  revert this. induction cs as [|c cs IH]; intros this; simpl.
  - lia.
  - destruct (call host (completed buildTest) this c) as [this' out] eqn:Hc.
    specialize (IH this').
    destruct (calls host (completed buildTest) this' cs) as [this'' out']; simpl in *.
    rewrite IH. clear IH.
    destruct c as [now|testCase|now]; simpl in Hc; inversion Hc; subst; clear Hc.
    + unfold onTestRunStart. destruct (hasEnvironmentDetails _); reflexivity.
    + unfold completed, updateTotalsFromTestResult; simpl.
      destruct (mapStatus (result testCase)); simpl; lia.
    + reflexivity.
Qed.

Lemma tally_total (tcs : list TestCase) :
  (tally Passed tcs + tally Failed tcs + tally Pending tcs + tally Skipped tcs
   + tally Other tcs)%Z = Z.of_nat (List.length tcs).
Proof.
  induction tcs as [|tc tcs IH]; [reflexivity|].
  rewrite !tally_cons. cbn [Datatypes.length].
  destruct (mapStatus (result tc)); cbn [state_name String.eqb Ascii.eqb Bool.eqb]; lia.
Qed.

Lemma calls_accounts (cs : list Call) (this : GenerateCtrfReport) (n : nat) :
  accounts_for (ctrfReport this) n ->
  accounts_for (ctrfReport (fst (calls host (completed buildTest) this cs)))
    (n + List.length (completions cs)).
Proof.
  intros (Ht & Hl & Ho). unfold accounts_for.
  rewrite calls_tests, calls_records, length_app, length_map, Ht, Hl.
  repeat split; try lia.
  unfold outcomes in *.
  change (passed ?s) with (counter s Passed).
  change (failed ?s) with (counter s Failed).
  change (pending ?s) with (counter s Pending).
  change (skipped ?s) with (counter s Skipped).
  change (other ?s) with (counter s Other).
  rewrite !calls_counter.
  pose proof (tally_total (completions cs)). simpl counter. lia.
Qed.

Lemma completed_counted_once (this : GenerateCtrfReport) (testCase : TestCase) :
  counted_once this (completed buildTest this testCase) testCase.
Proof.
  unfold counted_once, completed, updateTotalsFromTestResult; simpl.
  split; [eexists; reflexivity|].
  destruct (mapStatus (result testCase)); simpl; repeat split; try lia;
    intros outcome Hne; destruct outcome; simpl; congruence.
Qed.

End Reporter.

(** *** Counting *)

(** C1.  Whatever the calls of a run are, when it has [n] test-case
    completions of any outcomes the report of either copy ends with
    [summary.tests = n], [n] records and
    [passed + failed + pending + skipped + other = n]; and each completion
    adds exactly one record, one to [summary.tests] and one to the counter of
    its outcome, the other counters staying as they were. *)
Theorem completions_accounted
  (host : Host) (reporterOptions : ReporterConfigOptions) (cs : list Call) :
  let n := List.length (completions cs) in
  accounts_for (ctrfReport (fst (GenerateReport.run host reporterOptions cs))) n
  /\ accounts_for (ctrfReport (fst (Part000.run host reporterOptions cs))) n
  /\ (forall this testCase,
         counted_once this (GenerateReport.onTestCaseResult this testCase) testCase)
  /\ (forall this testCase,
         counted_once this (Part000.onTestCaseResult host this testCase) testCase).
Proof.
  assert (Hnew : accounts_for (ctrfReport (newReporter reporterOptions)) 0).
  { unfold newReporter; simpl.
    destruct (outputFile reporterOptions) as [name|]; simpl;
      unfold setFilename; try destruct (Js.endsWith _ _); repeat split. }
  intros n. split; [|split; [|split]].
  - exact (calls_accounts host GenerateReport.buildTest cs _ 0 Hnew).
  - exact (calls_accounts host (Part000.buildTest host) cs _ 0 Hnew).
  - intros this testCase.
    exact (completed_counted_once GenerateReport.buildTest this testCase).
  - intros this testCase.
    exact (completed_counted_once (Part000.buildTest host) this testCase).
Qed.

(** *** The outcome of a test case *)

Lemma mapStatus_cases (vitestResult : TestResult) :
  (state vitestResult = "passed" /\ mapStatus vitestResult = Passed)
  \/ (state vitestResult = "failed" /\ mapStatus vitestResult = Failed)
  \/ (state vitestResult = "skipped" /\ mapStatus vitestResult = Skipped)
  \/ (state vitestResult = "pending" /\ mapStatus vitestResult = Pending)
  \/ (~ In (state vitestResult) recognized /\ mapStatus vitestResult = Other).
Proof.
  unfold mapStatus, recognized.
  destruct (String.eqb_spec (state vitestResult) "passed") as [E1|N1]; [now left|].
  destruct (String.eqb_spec (state vitestResult) "failed") as [E2|N2]; [now right; left|].
  destruct (String.eqb_spec (state vitestResult) "skipped") as [E3|N3]; [now right; right; left|].
  destruct (String.eqb_spec (state vitestResult) "pending") as [E4|N4];
    [now right; right; right; left|].
  right; right; right; right. split; [|reflexivity].
  simpl. intros [H|[H|[H|[H|[]]]]]; congruence.
Qed.

(** C2.  [mapStatus] is a total function of the native state alone: it
    returns one of the five outcomes of the vocabulary for every native state
    (there is no exception in its type), a recognized state maps to the
    outcome of its own name, and every other state maps to [other]. *)
Theorem mapStatus_total (vitestResult : TestResult) :
  In (state_name (mapStatus vitestResult)) vocabulary
  /\ (In (state vitestResult) recognized ->
      state_name (mapStatus vitestResult) = state vitestResult)
  /\ (~ In (state vitestResult) recognized -> mapStatus vitestResult = Other)
  /\ (forall another : TestResult,
        state another = state vitestResult -> mapStatus another = mapStatus vitestResult).
Proof.
  split; [|split; [|split]].
  - destruct (mapStatus vitestResult); simpl; auto 6.
  - intros Hin.
    destruct (mapStatus_cases vitestResult) as [[E ->]|[[E ->]|[[E ->]|[[E ->]|[N _]]]]];
      simpl; congruence.
  - intros Hout.
    destruct (mapStatus_cases vitestResult) as [[E _]|[[E _]|[[E _]|[[E _]|[_ E]]]]];
      try exact E; exfalso; apply Hout; rewrite E; simpl; auto.
  - intros r' E. unfold mapStatus. now rewrite E.
Qed.

(** A state Vitest does not have maps to [other]; [passed] maps to itself. *)
Lemma mapStatus_total_witness :
  mapStatus {| state := "todo"; errors := [] |} = Other
  /\ state_name (mapStatus {| state := "passed"; errors := [] |}) = "passed".
Proof.
  split.
  - refine (proj1 (proj2 (proj2 (mapStatus_total {| state := "todo"; errors := [] |}))) _).
    simpl. intros [H|[H|[H|[H|[]]]]]; discriminate H.
  - refine (proj1 (proj2 (mapStatus_total {| state := "passed"; errors := [] |})) _).
    simpl. left. reflexivity.
Defined.

(** *** The records *)

Lemma resolved_outputDir (o : ReporterConfigOptions) :
  outputDir (resolveOptions o) = Some (outputDir o ?? defaultOutputDir).
Proof. reflexivity. Qed.

Lemma newReporter_fields (reporterOptions : ReporterConfigOptions) :
  reporterConfigOptions (newReporter reporterOptions) = resolveOptions reporterOptions
  /\ ctrfReport (newReporter reporterOptions) = emptyReport
  /\ ctrfEnvironment (newReporter reporterOptions) = Js.empty.
Proof.
  unfold newReporter; simpl. unfold setFilename.
  destruct (Js.endsWith _ _); repeat split.
Qed.

(** The constructor either throws, when the output directory is not there
    and cannot be made, or returns the instance of [newReporter]. *)
Lemma constructor_instance (host : Host) (reporterOptions : ReporterConfigOptions) :
  match constructor host reporterOptions with
  | Ok (this, out) =>
      this = newReporter reporterOptions
      /\ (out = [] \/ out = [Mkdir (outputDir reporterOptions ?? defaultOutputDir)])
  | Throw error =>
      fs_existsSync host (outputDir reporterOptions ?? defaultOutputDir) = false
      /\ fs_mkdirSync host (outputDir reporterOptions ?? defaultOutputDir) = Throw error
  end.
Proof.
  unfold constructor.
  destruct (newReporter_fields reporterOptions) as (-> & _ & _).
  rewrite resolved_outputDir. cbn [nullish].
  destruct (fs_existsSync host _); cbn [negb]; [now split; [|left]|].
  destruct (fs_mkdirSync host _) as [[]|error]; [now split; [|right]|now split].
Qed.

(** The records of a run: one per completed test case, built with the
    resolved options. *)
Lemma run_records
  (host : Host) (buildTest : ReporterConfigOptions -> TestCase -> CtrfTest)
  (reporterOptions : ReporterConfigOptions) (cs : list Call) :
  results_tests
    (ctrfReport (fst (calls host (completed buildTest) (newReporter reporterOptions) cs)))
  = map (buildTest (resolveOptions reporterOptions)) (completions cs).
Proof.
  rewrite calls_records.
  destruct (newReporter_fields reporterOptions) as (-> & -> & _). reflexivity.
Qed.

(** C7.  With [minimal: true] every record of a run, of either copy and
    whatever the outcome of the test, has the properties [name], [duration]
    and [status] and no other: none of [message], [trace], [line],
    [rawStatus], [type], [filePath], [retries], [flaky], [suite]. *)
Theorem minimal_records
  (host : Host) (reporterOptions : ReporterConfigOptions) (cs : list Call) :
  minimal reporterOptions = Some true ->
  Forall only_required
    (results_tests (ctrfReport (fst (GenerateReport.run host reporterOptions cs))))
  /\ Forall only_required
       (results_tests (ctrfReport (fst (Part000.run host reporterOptions cs)))).
Proof.
  intros Hmin.
  unfold GenerateReport.run, Part000.run, run.
  change GenerateReport.onTestCaseResult with (completed GenerateReport.buildTest).
  change (Part000.onTestCaseResult host) with (completed (Part000.buildTest host)).
  rewrite !run_records.
  split; apply Forall_forall; intros test Hin; apply in_map_iff in Hin;
    destruct Hin as (testCase & <- & _);
    unfold GenerateReport.buildTest, Part000.buildTest, resolveOptions; simpl;
    rewrite Hmin; simpl; (split; [reflexivity|]);
    repeat constructor.
Qed.

(** Two tests, one passed and one failed, reported with [minimal: true]. *)
Lemma minimal_records_witness :
  minimal minimalOptions = Some true
  /\ Forall only_required
       (results_tests
          (ctrfReport (fst (GenerateReport.run (exampleHost true) minimalOptions twoTests))))
  /\ Forall only_required
       (results_tests
          (ctrfReport (fst (Part000.run (exampleHost true) minimalOptions twoTests)))).
Proof.
  split; [reflexivity|].
  exact (minimal_records (exampleHost true) minimalOptions twoTests eq_refl).
Defined.

Lemma not_failed (testCase : TestCase) :
  state (result testCase) <> "failed" -> isTestFailed (result testCase) = false.
Proof. intros H. unfold isTestFailed. now apply String.eqb_neq. Qed.

Lemma run_options
  (host : Host) (buildTest : ReporterConfigOptions -> TestCase -> CtrfTest)
  (reporterOptions : ReporterConfigOptions) (cs : list Call) :
  reporterConfigOptions
    (fst (calls host (completed buildTest) (newReporter reporterOptions) cs))
  = resolveOptions reporterOptions.
Proof.
  destruct (calls_keep_options host buildTest cs (newReporter reporterOptions)) as [-> _].
  apply newReporter_fields.
Qed.

(** C3, as the code has it.  When minimal mode is off and the native state
    of a completed test case is not [failed], the record either copy appends
    has [message] and [trace] set to [undefined], not to the empty string, and
    the written report shows neither property. *)
Theorem not_failed_details_undefined
  (host : Host) (reporterOptions : ReporterConfigOptions) (cs : list Call)
  (testCase : TestCase) :
  minimal reporterOptions ?? false = false ->
  state (result testCase) <> "failed" ->
  details_undefined
    (fst (GenerateReport.run host reporterOptions cs))
    (GenerateReport.onTestCaseResult
       (fst (GenerateReport.run host reporterOptions cs)) testCase)
  /\ details_undefined
       (fst (Part000.run host reporterOptions cs))
       (Part000.onTestCaseResult host
          (fst (Part000.run host reporterOptions cs)) testCase).
Proof.
  intros Hmin Hstate. apply not_failed in Hstate.
  unfold GenerateReport.run, Part000.run, run.
  change GenerateReport.onTestCaseResult with (completed GenerateReport.buildTest).
  change (Part000.onTestCaseResult host) with (completed (Part000.buildTest host)).
  split.
  - eexists. split; [reflexivity|].
    rewrite run_options.
    unfold GenerateReport.buildTest, GenerateReport.extractFailureDetails, resolveOptions.
    cbn [minimal]. rewrite Hmin, Hstate.
    split; [reflexivity|]. split; [reflexivity|].
    intros indent. reflexivity.
  - eexists. split; [reflexivity|].
    rewrite run_options.
    unfold Part000.buildTest, Part000.extractFailureDetails, resolveOptions.
    cbn [minimal]. rewrite Hmin, Hstate.
    split; [reflexivity|]. split; [reflexivity|].
    intros indent. reflexivity.
Qed.

(** A passed test, reported with the default options. *)
Lemma not_failed_details_undefined_witness :
  minimal noOptions ?? false = false
  /\ state (result passedCase) = "passed"
  /\ details_undefined
       (fst (GenerateReport.run (exampleHost true) noOptions [TestRunStart 1000]))
       (GenerateReport.onTestCaseResult
          (fst (GenerateReport.run (exampleHost true) noOptions [TestRunStart 1000]))
          passedCase)
  /\ details_undefined
       (fst (Part000.run (exampleHost true) noOptions [TestRunStart 1000]))
       (Part000.onTestCaseResult (exampleHost true)
          (fst (Part000.run (exampleHost true) noOptions [TestRunStart 1000]))
          passedCase).
Proof.
  split; [reflexivity|]. split; [reflexivity|].
  apply (not_failed_details_undefined (exampleHost true) noOptions
           [TestRunStart 1000] passedCase).
  - reflexivity.
  - discriminate.
Defined.

(** C3 as it is written fails on a passed test: the record has [message]
    and [trace], and neither is the empty string. *)
Lemma passed_message_not_empty :
  exists test,
    results_tests
      (ctrfReport
         (fst (GenerateReport.run (exampleHost true) noOptions
                 [TestRunStart 1000; TestCaseResult passedCase])))
    = [test]
    /\ minimal (resolveOptions noOptions) = Some false
    /\ state (result passedCase) = "passed"
    /\ Js.get test "message" = Js.Undefined
    /\ Js.get test "trace" = Js.Undefined
    /\ is_empty_string (Js.get test "message") = false
    /\ is_empty_string (Js.get test "trace") = false.
Proof. eexists. repeat split. Qed.

(** *** Failure details *)

Lemma append_nil_r (s : string) : s ++ "" = s.
Proof. induction s as [|c s IH]; simpl; [reflexivity|now rewrite IH]. Qed.

Lemma append_assoc (a b c : string) : (a ++ b) ++ c = a ++ (b ++ c).
Proof. induction a as [|x a IH]; simpl; [reflexivity|now rewrite IH]. Qed.

Lemma separated_fold (sep : string) (rest : list string) (a b : string) :
  fold_left (fun text y => text ++ sep ++ y) rest (a ++ b)
  = a ++ fold_left (fun text y => text ++ sep ++ y) rest b.
Proof.
  revert b. induction rest as [|y rest IH]; intros b; simpl; [reflexivity|].
  now rewrite append_assoc, IH.
Qed.

(** [join] on an array of strings puts the separator between them. *)
Lemma join_separated (sep : string) (xs : list string) :
  Js.join sep (map Some xs) = separated sep xs.
Proof.
  destruct xs as [|x rest]; [reflexivity|].
  revert x. induction rest as [|y rest IH]; intros x; [reflexivity|].
  change (Js.join sep (map Some (x :: y :: rest)))
    with (x ++ sep ++ Js.join sep (map Some (y :: rest))).
  rewrite IH. simpl.
  now rewrite <- !separated_fold.
Qed.

(** [filter(Boolean)] keeps the stacks that have a text. *)
Lemma truthy_stacks (errs : list TestError) :
  filter Js.truthy (map (fun error => stack error) errs)
  = map Some (stacks_with_text errs).
Proof.
  unfold stacks_with_text, stacks_present.
  induction errs as [|e errs IH]; [reflexivity|].
  simpl. destruct (stack e) as [s|]; simpl; [|exact IH].
  destruct (String.eqb s ""); simpl; now rewrite IH.
Qed.

(** C4.  For a failed test case, [message] is the messages of all its
    errors in order, joined by a line feed, and [trace] is the stacks, in
    order and joined by two line feeds, of the errors that have a stack; an
    error without a stack adds nothing to [trace].  An error has a stack when
    its [stack] is a text that is not empty: this is what [filter(Boolean)]
    keeps.  Both copies agree. *)
Theorem failure_details (host : Host) (testCase : TestCase) :
  state (result testCase) = "failed" ->
  let errs := errors (result testCase) in
  Js.get (GenerateReport.extractFailureDetails testCase) "message"
  = Js.Str (separated LF (map message errs))
  /\ Js.get (GenerateReport.extractFailureDetails testCase) "trace"
     = Js.Str (separated (LF ++ LF) (stacks_with_text errs))
  /\ Js.get (Part000.extractFailureDetails host testCase) "message"
     = Js.Str (separated LF (map message errs))
  /\ Js.get (Part000.extractFailureDetails host testCase) "trace"
     = Js.Str (separated (LF ++ LF) (stacks_with_text errs)).
Proof.
  intros Hfailed errs.
  assert (Hf : isTestFailed (result testCase) = true)
    by (unfold isTestFailed; now rewrite Hfailed).
  assert (Hm : Js.join LF (map (fun error => Some (message error)) errs)
               = separated LF (map message errs))
    by (rewrite <- join_separated, map_map; reflexivity).
  assert (Ht : Js.join (LF ++ LF) (filter Js.truthy (map (fun error => stack error) errs))
               = separated (LF ++ LF) (stacks_with_text errs))
    by (rewrite truthy_stacks; apply join_separated).
  unfold GenerateReport.extractFailureDetails, Part000.extractFailureDetails.
  rewrite Hf. fold errs. rewrite Hm, Ht.
  repeat split; try reflexivity;
    destruct (negb _ && negb _); try reflexivity;
    destruct (Part000.extractLineNumber _ _ _); reflexivity.
Qed.

(** For the errors [A], with a stack, and [B], with none, [message] is [A],
    a line feed, [B], and [trace] is the stack of [A] alone. *)
Lemma failure_details_witness :
  let testCase := testCaseOf "fails" "/t/f.js" "failed" errorsAB in
  state (result testCase) = "failed"
  /\ Js.get (GenerateReport.extractFailureDetails testCase) "message"
     = Js.Str ("A" ++ LF ++ "B")
  /\ Js.get (GenerateReport.extractFailureDetails testCase) "trace"
     = Js.Str "at x (/t/f.js:10:2)"
  /\ Js.get (Part000.extractFailureDetails (exampleHost true) testCase) "message"
     = Js.Str ("A" ++ LF ++ "B")
  /\ Js.get (Part000.extractFailureDetails (exampleHost true) testCase) "trace"
     = Js.Str "at x (/t/f.js:10:2)".
Proof.
  split; [reflexivity|].
  exact (failure_details (exampleHost true)
           (testCaseOf "fails" "/t/f.js" "failed" errorsAB) eq_refl).
Defined.

(** When no error has the empty string for a stack, the stacks of [trace]
    are simply the stacks that are there. *)
Lemma stacks_with_text_present (errs : list TestError) :
  Forall (fun error => stack error <> Some "") errs ->
  stacks_with_text errs = stacks_present errs.
Proof.
  unfold stacks_with_text, stacks_present.
  induction 1 as [|e errs He _ IH]; [reflexivity|].
  simpl. destruct (stack e) as [s|]; simpl; [|exact IH].
  destruct (String.eqb_spec s "") as [->|_]; [congruence|].
  simpl. now rewrite IH.
Qed.

(** An error whose stack is the empty string counts as one without a stack:
    it adds neither a text nor a separator to [trace]. *)
Example empty_stack_dropped :
  let testCase := testCaseOf "fails" "/t/f.js" "failed" errorsAB_empty in
  map stack (errors (result testCase)) = [Some "at x (/t/f.js:10:2)"; Some ""]
  /\ Js.get (GenerateReport.extractFailureDetails testCase) "trace"
     = Js.Str "at x (/t/f.js:10:2)"
  /\ Js.get (Part000.extractFailureDetails (exampleHost true) testCase) "trace"
     = Js.Str "at x (/t/f.js:10:2)".
Proof. repeat split. Qed.

(** *** The line of a failure *)

Lemma parseLine_app (stack : list Part000.Frame) (line : string) :
  Part000.parseLine stack line = (stack ++ frame_of_line line)%list.
Proof.
  unfold frame_of_line, Part000.parseLine.
  destruct (Regex.exec Part000.nodeRe line); [reflexivity|now rewrite app_nil_r].
Qed.

(** The frames come in the order of the lines of the trace. *)
Lemma parseStackTrace_in_order (stackString : string) :
  Part000.parseStackTrace stackString
  = flat_map frame_of_line (Js.split_lines stackString).
Proof.
  unfold Part000.parseStackTrace.
  enough (H : forall lines stack,
             fold_left Part000.parseLine lines stack
             = (stack ++ flat_map frame_of_line lines)%list) by apply (H _ []).
  induction lines as [|line lines IH]; intros stack; simpl.
  - now rewrite app_nil_r.
  - now rewrite IH, parseLine_app, <- app_assoc.
Qed.

Section FindFrame.

Variable host : Host.
Variable testFilePath : string.

Lemma foreign_is_skipped (frame : Part000.Frame) :
  foreign_frame host testFilePath frame ->
  Part000.isTestFrame host testFilePath frame = Ok false.
Proof.
  unfold Part000.isTestFrame.
  intros [-> | (f & p & q & -> & -> & -> & Hne)]; [reflexivity|].
  f_equal. now apply String.eqb_neq.
Qed.

Lemma own_is_found (frame : Part000.Frame) :
  own_frame host testFilePath frame ->
  Part000.isTestFrame host testFilePath frame = Ok true.
Proof.
  unfold Part000.isTestFrame.
  intros (f & p & -> & -> & ->). now rewrite String.eqb_refl.
Qed.

Lemma raising_throws (frame : Part000.Frame) :
  raising_frame host testFilePath frame ->
  exists error, Part000.isTestFrame host testFilePath frame = Throw error.
Proof.
  unfold Part000.isTestFrame.
  intros (f & -> & [(e & ->) | (p & e & -> & ->)]); now exists e.
Qed.

Lemma find_after_foreign (before rest : list Part000.Frame) :
  Forall (foreign_frame host testFilePath) before ->
  Array_find (Part000.isTestFrame host testFilePath) (before ++ rest)
  = Array_find (Part000.isTestFrame host testFilePath) rest.
Proof.
  induction 1 as [|frame before Hframe _ IH]; [reflexivity|].
  simpl. now rewrite (foreign_is_skipped frame Hframe).
Qed.

(** Every frame is of one of the three kinds. *)
Lemma frame_cases (frame : Part000.Frame) :
  own_frame host testFilePath frame
  \/ foreign_frame host testFilePath frame
  \/ raising_frame host testFilePath frame.
Proof.
  unfold own_frame, foreign_frame, raising_frame.
  destruct (Part000.file frame) as [f|]; [|now right; left; left].
  destruct (path_resolve host f) as [p|e] eqn:Hf;
    [|right; right; exists f; split; [reflexivity|left; now exists e]].
  destruct (path_resolve host testFilePath) as [q|e] eqn:Ht;
    [|right; right; exists f; split; [reflexivity|right; now exists p, e]].
  destruct (string_dec p q) as [->|Hne].
  - left. now exists f, q.
  - right; left; right. now exists f, p, q.
Qed.

End FindFrame.

(** The [line] of the failure details: a line number when the test failed,
    its trace and the path of its file are not empty, and the resolution gives
    one; [undefined] otherwise. *)
Lemma failure_line (host : Host) (testCase : TestCase) :
  let trace := separated (LF ++ LF) (stacks_with_text (errors (result testCase))) in
  let testFilePath := moduleId (module testCase) in
  Js.get (Part000.extractFailureDetails host testCase) "line"
  = if isTestFailed (result testCase)
       && (negb (String.eqb trace "") && negb (String.eqb testFilePath ""))
    then match Part000.extractLineNumber host trace testFilePath with
         | Some lineNumber => Js.Num lineNumber
         | None => Js.Undefined
         end
    else Js.Undefined.
Proof.
  intros trace testFilePath.
  unfold Part000.extractFailureDetails.
  rewrite truthy_stacks, join_separated. fold trace testFilePath.
  destruct (isTestFailed (result testCase)); [|reflexivity].
  cbn [andb].
  destruct (negb (String.eqb trace "") && negb (String.eqb testFilePath ""));
    [|reflexivity].
  destruct (Part000.extractLineNumber host trace testFilePath); reflexivity.
Qed.

(** A record has the property [line] only when the failure details have a
    line. *)
Lemma record_line (host : Host) (options : ReporterConfigOptions) (testCase : TestCase) :
  Js.get (Part000.extractFailureDetails host testCase) "line" = Js.Undefined ->
  Js.has (Part000.buildTest host options testCase) "line" = false.
Proof.
  intros Hno. unfold Part000.buildTest.
  destruct (minimal options) as [[|]|]; try reflexivity.
  rewrite Hno. reflexivity.
Qed.

(** C5.  [extractLineNumber] reads the frames in the order of the lines of
    the trace and returns the line number of the first frame of the test's own
    file, the frames before it being of no file or of another file.  It
    returns no line number when no frame is of the test's own file, and when
    the resolution of a path throws before such a frame is found; it throws
    nothing itself.  A frame is always of one of these three kinds.  When no
    line number is returned for the trace and the file of a test case, its
    record has no property [line]. *)
Theorem line_resolution (host : Host) (trace testFilePath : string) :
  let frames := Part000.parseStackTrace trace in
  frames = flat_map frame_of_line (Js.split_lines trace)
  /\ (forall before frame after,
         frames = (before ++ frame :: after)%list ->
         Forall (foreign_frame host testFilePath) before ->
         own_frame host testFilePath frame ->
         Part000.extractLineNumber host trace testFilePath = Part000.lineNumber frame)
  /\ (Forall (foreign_frame host testFilePath) frames ->
      Part000.extractLineNumber host trace testFilePath = None)
  /\ (forall before frame after,
         frames = (before ++ frame :: after)%list ->
         Forall (foreign_frame host testFilePath) before ->
         raising_frame host testFilePath frame ->
         Part000.extractLineNumber host trace testFilePath = None)
  /\ (forall frame,
         own_frame host testFilePath frame
         \/ foreign_frame host testFilePath frame
         \/ raising_frame host testFilePath frame)
  /\ (Part000.extractLineNumber host trace testFilePath = None ->
      forall options testCase,
        separated (LF ++ LF) (stacks_with_text (errors (result testCase))) = trace ->
        moduleId (module testCase) = testFilePath ->
        Js.has (Part000.buildTest host options testCase) "line" = false).
Proof.
  intros frames. split; [apply parseStackTrace_in_order|].
  assert (Hrecord :
            Part000.extractLineNumber host trace testFilePath = None ->
            forall options testCase,
              separated (LF ++ LF) (stacks_with_text (errors (result testCase))) = trace ->
              moduleId (module testCase) = testFilePath ->
              Js.has (Part000.buildTest host options testCase) "line" = false).
  { intros Hnone options testCase Htrace Hfile.
    apply record_line. rewrite failure_line. cbv zeta. rewrite Htrace, Hfile, Hnone.
    now destruct (_ && _). }
  unfold Part000.extractLineNumber. fold frames.
  split; [|split; [|split; [|split; [apply frame_cases|exact Hrecord]]]].
  - intros before frame after -> Hbefore Hown.
    rewrite find_after_foreign by assumption. simpl.
    now rewrite (own_is_found host testFilePath frame Hown).
  - intros Hall.
    rewrite <- (app_nil_r frames), find_after_foreign by assumption. reflexivity.
  - intros before frame after -> Hbefore Hraise.
    rewrite find_after_foreign by assumption. simpl.
    destruct (raising_throws host testFilePath frame Hraise) as [error ->]. reflexivity.
Qed.

(** The own file at line 42 after another file at line 7: the line is 42. *)
Lemma line_resolution_witness :
  Part000.parseStackTrace traceOwn42
  = [{| Part000.file := Some "/other/file.ts"; Part000.lineNumber := Some 7%Z |};
     {| Part000.file := Some "/t/f.test.ts"; Part000.lineNumber := Some 42%Z |}]
  /\ Part000.extractLineNumber (exampleHost true) traceOwn42 "/t/f.test.ts" = Some 42%Z.
Proof.
  split; [vm_compute; reflexivity|].
  refine (proj1 (proj2 (line_resolution (exampleHost true) traceOwn42 "/t/f.test.ts"))
            [{| Part000.file := Some "/other/file.ts"; Part000.lineNumber := Some 7%Z |}]
            {| Part000.file := Some "/t/f.test.ts"; Part000.lineNumber := Some 42%Z |}
            [] _ _ _).
  - vm_compute; reflexivity.
  - constructor; [|constructor].
    right. exists "/other/file.ts", "/other/file.ts", "/t/f.test.ts".
    repeat split; discriminate.
  - exists "/t/f.test.ts", "/t/f.test.ts". repeat split.
Defined.

(** *** The two copies *)

Lemma report_eq (r r' : CtrfReport) :
  results_tool_name r = results_tool_name r' ->
  results_summary r = results_summary r' ->
  results_tests r = results_tests r' ->
  results_environment r = results_environment r' ->
  r = r'.
Proof. destruct r, r'; simpl; intros; subst; reflexivity. Qed.

Lemma reporter_eq (this this' : GenerateCtrfReport) :
  ctrfReport this = ctrfReport this' ->
  ctrfEnvironment this = ctrfEnvironment this' ->
  reporterConfigOptions this = reporterConfigOptions this' ->
  filename this = filename this' ->
  this = this'.
Proof. destruct this, this'; simpl; intros; subst; reflexivity. Qed.

Section TwoCopies.

Variable host : Host.
Variables buildTest buildTest' : ReporterConfigOptions -> TestCase -> CtrfTest.

(** Nothing but the records depends on how a record is built. *)
Lemma calls_same_but_records (cs : list Call) (this this' : GenerateCtrfReport) :
  same_but_records this this' ->
  same_but_records
    (fst (calls host (completed buildTest) this cs))
    (fst (calls host (completed buildTest') this' cs)).
Proof.
  revert this this'. induction cs as [|c cs IH]; intros this this' Hsame; [exact Hsame|].
  simpl.
  destruct (call host (completed buildTest) this c) as [this1 out1] eqn:H1.
  destruct (call host (completed buildTest') this' c) as [this1' out1'] eqn:H1'.
  specialize (IH this1 this1').
  destruct (calls host (completed buildTest) this1 cs) as [this2 out2].
  destruct (calls host (completed buildTest') this1' cs) as [this2' out2'].
  simpl in *. apply IH. clear IH.
  destruct Hsame as (Hn & Hs & He & Hce & Ho & Hf).
  destruct c as [now|testCase|now]; simpl in H1, H1'; inversion H1; inversion H1'; subst;
    clear H1 H1'.
  - unfold onTestRunStart, same_but_records, setEnvironmentDetails; simpl.
    rewrite Hce, Ho.
    destruct (hasEnvironmentDetails _); simpl; rewrite Hn, Hs, ?He, Hf;
      repeat split; assumption.
  - unfold completed, updateTotalsFromTestResult, same_but_records; simpl.
    rewrite Hn, Hs, He, Hce, Hf. repeat split; assumption.
  - unfold same_but_records; simpl. rewrite Hn, Hs, He, Hce, Hf. repeat split; assumption.
Qed.

(** Copies that build the same records for the test cases of a run do the
    same on it. *)
Lemma calls_same (cs : list Call) (this : GenerateCtrfReport) :
  Forall
    (fun testCase =>
       buildTest (reporterConfigOptions this) testCase
       = buildTest' (reporterConfigOptions this) testCase) (completions cs) ->
  calls host (completed buildTest) this cs = calls host (completed buildTest') this cs.
Proof.
  revert this. induction cs as [|c cs IH]; intros this Hall; [reflexivity|].
  simpl.
  assert (Hc : call host (completed buildTest) this c = call host (completed buildTest') this c).
  { destruct c as [now|testCase|now]; try reflexivity.
    simpl in Hall. inversion Hall as [|? ? Hhere _]; subst.
    simpl. unfold completed. now rewrite Hhere. }
  rewrite <- Hc.
  destruct (call host (completed buildTest) this c) as [this1 out1] eqn:H1.
  rewrite IH; [reflexivity|].
  pose proof (call_keeps_options host buildTest this c) as [Ho _].
  rewrite H1 in Ho; simpl in Ho. rewrite Ho.
  destruct c; simpl in Hall; try assumption. now inversion Hall.
Qed.

End TwoCopies.

(** The record of [part_000] without its [line] is the record of
    [generate-report.ts]. *)
Lemma buildTest_without_line
  (host : Host) (options : ReporterConfigOptions) (testCase : TestCase) :
  Js.delete (Part000.buildTest host options testCase) "line"
  = GenerateReport.buildTest options testCase.
Proof.
  unfold Part000.buildTest, GenerateReport.buildTest.
  destruct (minimal options) as [[|]|]; try reflexivity.
  assert (Hm : Js.get (Part000.extractFailureDetails host testCase) "message"
               = Js.get (GenerateReport.extractFailureDetails testCase) "message"
               /\ Js.get (Part000.extractFailureDetails host testCase) "trace"
                  = Js.get (GenerateReport.extractFailureDetails testCase) "trace").
  { unfold Part000.extractFailureDetails, GenerateReport.extractFailureDetails.
    destruct (isTestFailed _); [|now split].
    destruct (negb _ && negb _); [|now split].
    destruct (Part000.extractLineNumber _ _ _); now split. }
  destruct Hm as [-> ->].
  destruct (Js.get (Part000.extractFailureDetails host testCase) "line"); reflexivity.
Qed.

(** When no line is found, the two records are the same. *)
Lemma buildTest_no_line
  (host : Host) (options : ReporterConfigOptions) (testCase : TestCase) :
  no_line host testCase ->
  Part000.buildTest host options testCase = GenerateReport.buildTest options testCase.
Proof.
  intros Hno. rewrite <- (buildTest_without_line host).
  unfold Part000.buildTest. destruct (minimal options) as [[|]|]; try reflexivity.
  rewrite Hno. reflexivity.
Qed.

(** C6, as the code has it.  On the same calls with the same options the
    two copies end with the same summary, the same environment and the same
    records but for the property [line], which only the copy of [part_000]
    ever sets: its report without [line] is the report of
    [generate-report.ts].  When no line is found for any test case of the run,
    the two copies do the same altogether. *)
Theorem copies_agree_but_for_line
  (host : Host) (reporterOptions : ReporterConfigOptions) (cs : list Call) :
  let a := fst (GenerateReport.run host reporterOptions cs) in
  let b := fst (Part000.run host reporterOptions cs) in
  ctrfReport a = without_line (ctrfReport b)
  /\ environment_of a (ctrfReport a) = environment_of b (ctrfReport b)
  /\ (Forall (no_line host) (completions cs) ->
      GenerateReport.run host reporterOptions cs = Part000.run host reporterOptions cs).
Proof.
  unfold GenerateReport.run, Part000.run, run.
  change GenerateReport.onTestCaseResult with (completed GenerateReport.buildTest).
  change (Part000.onTestCaseResult host) with (completed (Part000.buildTest host)).
  set (a := fst (calls host (completed GenerateReport.buildTest)
                   (newReporter reporterOptions) cs)).
  set (b := fst (calls host (completed (Part000.buildTest host))
                   (newReporter reporterOptions) cs)).
  assert (Hsame : same_but_records a b).
  { apply calls_same_but_records. repeat split. }
  destruct Hsame as (Hn & Hs & He & Hce & Ho & Hf).
  split; [|split].
  - apply report_eq; simpl; try assumption.
    unfold a, b. rewrite !run_records, map_map.
    apply map_ext. intros testCase. symmetry. apply buildTest_without_line.
  - unfold environment_of. now rewrite He, Hce.
  - intros Hall. symmetry. apply calls_same.
    apply Forall_forall. intros testCase Hin.
    apply buildTest_no_line. revert testCase Hin. now apply Forall_forall.
Qed.

(** The run of two tests of which none has a stack: the copies do the
    same. *)
Lemma copies_agree_but_for_line_witness :
  Forall (no_line (exampleHost true)) (completions twoTests)
  /\ ctrfReport (fst (GenerateReport.run (exampleHost true) noOptions twoTests))
     = without_line (ctrfReport (fst (Part000.run (exampleHost true) noOptions twoTests)))
  /\ GenerateReport.run (exampleHost true) noOptions twoTests
     = Part000.run (exampleHost true) noOptions twoTests.
Proof.
  assert (Hall : Forall (no_line (exampleHost true)) (completions twoTests))
    by (repeat constructor).
  split; [exact Hall|].
  split.
  - exact (proj1 (copies_agree_but_for_line (exampleHost true) noOptions twoTests)).
  - exact (proj2 (proj2 (copies_agree_but_for_line (exampleHost true) noOptions twoTests))
             Hall).
Defined.

(** C6 as it is written fails on a failed test whose trace has a frame of
    the test's own file: the record of [part_000] has the line 42, the record
    of [generate-report.ts] has no line. *)
Lemma copies_differ_on_line :
  let cs := [TestRunStart 1000; TestCaseResult failedAt42; TestRunEnd 2000] in
  map (fun test => Js.get test "line")
    (results_tests (ctrfReport (fst (GenerateReport.run (exampleHost true) noOptions cs))))
  = [Js.Undefined]
  /\ map (fun test => Js.get test "line")
       (results_tests (ctrfReport (fst (Part000.run (exampleHost true) noOptions cs))))
     = [Js.Num 42]
  /\ map (fun test => Js.has test "line")
       (results_tests (ctrfReport (fst (GenerateReport.run (exampleHost true) noOptions cs))))
     = [false]
  /\ map (fun test => Js.has test "line")
       (results_tests (ctrfReport (fst (Part000.run (exampleHost true) noOptions cs))))
     = [true].
Proof. vm_compute. repeat split. Qed.

(** *** The environment block *)

Lemma set_fresh (e : Js.object) (k : string) (v : Js.value) :
  Js.has e k = false -> Js.set e k v = (e ++ [(k, v)])%list.
Proof.
  induction e as [|[k' v'] e IH]; simpl; [reflexivity|].
  destruct (String.eqb k' k); simpl; [discriminate|].
  intros H. now rewrite IH.
Qed.

Lemma set_present (e : Js.object) (k : string) (v : Js.value) :
  NoDup (Js.keys e) -> In (k, v) e -> Js.set e k v = e.
Proof.
  induction e as [|[k' v'] e IH]; simpl; [contradiction|].
  intros Hnd [Heq | Hin].
  - inversion Heq; subst. now rewrite String.eqb_refl.
  - inversion Hnd as [|? ? Hnotin Hnd']; subst.
    destruct (String.eqb_spec k' k) as [->|Hne].
    + exfalso. apply Hnotin. unfold Js.keys. apply in_map_iff. now exists (k, v).
    + now rewrite IH.
Qed.

Lemma has_app (e e' : Js.object) (k : string) :
  Js.has (e ++ e')%list k = Js.has e k || Js.has e' k.
Proof.
  induction e as [|[k' v'] e IH]; simpl; [reflexivity|].
  now rewrite IH, orb_assoc.
Qed.

Lemma has_keys (e : Js.object) (k : string) :
  ~ In k (Js.keys e) -> Js.has e k = false.
Proof.
  induction e as [|[k' v'] e IH]; simpl; [reflexivity|].
  intros H. rewrite IH by tauto.
  destruct (String.eqb_spec k' k); [tauto|reflexivity].
Qed.

Lemma block_keys (table : list (string * option string)) (k : string) :
  In k (Js.keys (block_of table)) -> In k (map fst table).
Proof.
  unfold Js.keys, block_of. rewrite in_map_iff.
  intros ([k' v] & <- & Hin). apply in_flat_map in Hin.
  destruct Hin as ([k'' x] & Hin & Hx). simpl in Hx.
  destruct x as [s|]; [|contradiction].
  destruct Hx as [Hx|[]]. inversion Hx; subst.
  apply in_map_iff. now exists (k', Some s).
Qed.

Lemma block_NoDup (table : list (string * option string)) :
  NoDup (map fst table) -> NoDup (Js.keys (block_of table)).
Proof.
  induction table as [|[k x] table IH]; simpl; [constructor|].
  intros Hnd. inversion Hnd as [|? ? Hnotin Hnd']; subst.
  destruct x as [s|]; simpl; [|now apply IH].
  constructor; [|now apply IH].
  intros Hin. apply Hnotin. now apply block_keys.
Qed.

Lemma fill_fresh (table : list (string * option string)) (e : CtrfEnvironment) :
  NoDup (map fst table) ->
  (forall k, In k (map fst table) -> Js.has e k = false) ->
  fill table e = (e ++ block_of table)%list.
Proof.
  revert e. induction table as [|[k x] table IH]; intros e Hnd Hfresh; simpl.
  - now rewrite app_nil_r.
  - inversion Hnd as [|? ? Hnotin Hnd']; subst.
    destruct x as [s|]; simpl.
    + rewrite set_fresh by (apply Hfresh; now left).
      change (fold_left _ table ?e0) with (fill table e0).
      rewrite IH, <- app_assoc; [reflexivity|assumption|].
      intros k' Hin. rewrite has_app, Hfresh by now right. simpl.
      destruct (String.eqb_spec k k') as [->|]; [contradiction|reflexivity].
    + apply IH; [assumption|]. intros k' Hin. apply Hfresh. now right.
Qed.

Lemma fill_again (table part : list (string * option string)) :
  NoDup (map fst table) ->
  incl part table ->
  fill part (block_of table) = block_of table.
Proof.
  intros Hnd. induction part as [|[k x] part IH]; intros Hincl; [reflexivity|].
  simpl. destruct x as [s|]; simpl.
  - rewrite set_present.
    + apply IH. intros kv Hin. apply Hincl. now right.
    + now apply block_NoDup.
    + unfold block_of. apply in_flat_map. exists (k, Some s).
      split; [apply Hincl|]; now left.
  - apply IH. intros kv Hin. apply Hincl. now right.
Qed.

Lemma supplied_NoDup (o : ReporterConfigOptions) : NoDup (map fst (supplied o)).
Proof.
  simpl. repeat (constructor; [simpl; intuition discriminate|]). constructor.
Qed.

Lemma supplied_resolved (o : ReporterConfigOptions) :
  supplied (resolveOptions o) = supplied o.
Proof.
  unfold supplied, resolveOptions, or_undefined; simpl.
  repeat match goal with
         | |- context [match ?x with Some v => Some v | None => None end] =>
             replace (match x with Some v => Some v | None => None end) with x
               by (destruct x; reflexivity)
         end.
  reflexivity.
Qed.

Lemma has_block (table : list (string * option string)) :
  hasEnvironmentDetails (block_of table)
  = existsb (fun kv => match snd kv with Some _ => true | None => false end) table.
Proof.
  induction table as [|[k x] table IH]; [reflexivity|].
  simpl. destruct x as [s|]; [reflexivity|exact IH].
Qed.

(** What [setEnvironmentDetails] makes of an empty block and of the block it
    has already filled, and when the block has a key. *)
Lemma environment_table (o : ReporterConfigOptions) (this : GenerateCtrfReport) :
  (ctrfEnvironment this = Js.empty \/ ctrfEnvironment this = suppliedEnvironment o) ->
  ctrfEnvironment (setEnvironmentDetails this (resolveOptions o)) = suppliedEnvironment o
  /\ hasEnvironmentDetails (suppliedEnvironment o) = any_supplied o.
Proof.
  intros Hstart. split; [|apply has_block].
  change (ctrfEnvironment (setEnvironmentDetails this (resolveOptions o)))
    with (fill (supplied (resolveOptions o)) (ctrfEnvironment this)).
  rewrite supplied_resolved.
  destruct Hstart as [-> | ->].
  - rewrite fill_fresh; [reflexivity|apply supplied_NoDup|reflexivity].
  - apply fill_again; [apply supplied_NoDup|apply incl_refl].
Qed.

Section Environment.

Variable host : Host.
Variable buildTest : ReporterConfigOptions -> TestCase -> CtrfTest.
Variable o : ReporterConfigOptions.

Lemma start_environment_state (after_start : bool) (this : GenerateCtrfReport) (now : Z) :
  environment_state o after_start this ->
  environment_state o true (onTestRunStart this now).
Proof.
  intros [Ho Henv]. unfold onTestRunStart.
  set (this1 := with_report this _).
  assert (Ho1 : reporterConfigOptions this1 = resolveOptions o) by exact Ho.
  assert (Hstart : ctrfEnvironment this1 = Js.empty
                   \/ ctrfEnvironment this1 = suppliedEnvironment o)
    by (destruct after_start; [right|left]; apply Henv).
  rewrite Ho1.
  destruct (environment_table o this1 Hstart) as [Hblock Hhas].
  rewrite Hblock, Hhas.
  destruct (setEnvironmentDetails_keeps this1 (resolveOptions o)) as (Hk1 & _ & Hk3).
  set (this2 := setEnvironmentDetails this1 (resolveOptions o)) in *.
  unfold environment_state.
  destruct (any_supplied o) eqn:Hany.
  - split; [exact (eq_trans Hk1 Ho1)|]. split; [exact Hblock|reflexivity].
  - split; [exact (eq_trans Hk1 Ho1)|]. split; [exact Hblock|].
    rewrite Hk3.
    change (results_environment (ctrfReport this1))
      with (results_environment (ctrfReport this)).
    destruct after_start; apply Henv.
Qed.

Lemma call_environment_state (after_start : bool) (this : GenerateCtrfReport) (c : Call) :
  environment_state o after_start this ->
  environment_state o (after_start || started [c]) (fst (call host (completed buildTest) this c)).
Proof.
  intros Hstate. destruct c as [now|testCase|now]; simpl.
  - rewrite orb_true_r. now apply start_environment_state with after_start.
  - rewrite orb_false_r. exact Hstate.
  - rewrite orb_false_r. exact Hstate.
Qed.

Lemma calls_environment_state (cs : list Call) (after_start : bool) (this : GenerateCtrfReport) :
  environment_state o after_start this ->
  environment_state o (after_start || started cs)
    (fst (calls host (completed buildTest) this cs)).
Proof.
  revert after_start this.
  induction cs as [|c cs IH]; intros after_start this Hstate; simpl.
  - now rewrite orb_false_r.
  - pose proof (call_environment_state after_start this c Hstate) as Hc.
    destruct (call host (completed buildTest) this c) as [this1 out1]; simpl in Hc.
    specialize (IH _ this1 Hc).
    destruct (calls host (completed buildTest) this1 cs) as [this2 out2]; simpl in *.
    destruct c; simpl in *; rewrite ?orb_true_r, ?orb_false_r in *; exact IH.
Qed.

Lemma run_environment (cs : list Call) :
  let this := fst (calls host (completed buildTest) (newReporter o) cs) in
  environment_of this (ctrfReport this)
  = if started cs then expected_environment o else None.
Proof.
  intros this.
  assert (H0 : environment_state o false (newReporter o)).
  { destruct (newReporter_fields o) as (Ho & Hr & He).
    split; [exact Ho|]. split; [exact He|]. now rewrite Hr. }
  pose proof (calls_environment_state cs false _ H0) as [_ Henv]. fold this in Henv.
  simpl in Henv. unfold environment_of, expected_environment.
  destruct (started cs); destruct Henv as [He ->].
  - destruct (any_supplied o); [now rewrite He|reflexivity].
  - reflexivity.
Qed.

End Environment.

(** C8.  Once the run has started, the report of either copy has an
    environment block exactly when an environment option was supplied to the
    constructor, and the block then has the supplied options, each with its
    value, and nothing else. *)
Theorem environment_block
  (host : Host) (reporterOptions : ReporterConfigOptions) (cs : list Call) :
  started cs = true ->
  let a := fst (GenerateReport.run host reporterOptions cs) in
  let b := fst (Part000.run host reporterOptions cs) in
  environment_of a (ctrfReport a) = expected_environment reporterOptions
  /\ environment_of b (ctrfReport b) = expected_environment reporterOptions.
Proof.
  intros Hstarted a b.
  pose proof (run_environment host GenerateReport.buildTest reporterOptions cs) as Ha.
  pose proof (run_environment host (Part000.buildTest host) reporterOptions cs) as Hb.
  rewrite Hstarted in Ha, Hb. split; [exact Ha|exact Hb].
Qed.

(** With [appName] and [branchName] supplied the block has these two; with
    nothing supplied there is no block. *)
Lemma environment_block_witness :
  started twoTests = true
  /\ (environment_of
        (fst (GenerateReport.run (exampleHost true) shopOptions twoTests))
        (ctrfReport (fst (GenerateReport.run (exampleHost true) shopOptions twoTests)))
      = Some [("appName", Js.Str "shop"); ("branchName", Js.Str "main")]
      /\ environment_of
           (fst (Part000.run (exampleHost true) shopOptions twoTests))
           (ctrfReport (fst (Part000.run (exampleHost true) shopOptions twoTests)))
         = Some [("appName", Js.Str "shop"); ("branchName", Js.Str "main")])
  /\ (environment_of
        (fst (GenerateReport.run (exampleHost true) noOptions twoTests))
        (ctrfReport (fst (GenerateReport.run (exampleHost true) noOptions twoTests)))
      = None
      /\ environment_of
           (fst (Part000.run (exampleHost true) noOptions twoTests))
           (ctrfReport (fst (Part000.run (exampleHost true) noOptions twoTests)))
         = None).
Proof.
  split; [reflexivity|]. split.
  - exact (environment_block (exampleHost true) shopOptions twoTests eq_refl).
  - exact (environment_block (exampleHost true) noOptions twoTests eq_refl).
Defined.

(** *** The end of the run *)

Lemma written_line (dir name : string) :
  util_format (reporterName ++ ": successfully written ctrf json to %s/%s") [dir; name]
  = "vitest-ctrf-json-reporter: successfully written ctrf json to " ++ dir ++ "/" ++ name.
Proof.
  cbn. repeat f_equal. apply append_nil_r.
Qed.

Lemma end_only_stop (host : Host) (this : GenerateCtrfReport) (now : Z) :
  only_stop_changed this (fst (onTestRunEnd host this now)) now.
Proof.
  unfold only_stop_changed, onTestRunEnd; simpl.
  repeat split.
Qed.

Lemma end_write_outcome (host : Host) (this : GenerateCtrfReport) (dir : string) (now : Z) :
  outputDir (reporterConfigOptions this) = Some dir ->
  write_outcome host dir (fst (onTestRunEnd host this now))
    (snd (onTestRunEnd host this now)).
Proof.
  intros Hdir.
  unfold write_outcome, onTestRunEnd, writeReportToFile, written_text.
  cbn [fst snd reporterConfigOptions filename with_report]. rewrite Hdir.
  cbn [nullish format_arg].
  destruct (fs_writeFileSync host _ _); [|reflexivity].
  now rewrite written_line.
Qed.

(** C9.  At the end of a run of either copy, [onTestRunEnd] returns, with
    a report in which only [summary.stop] changed, whether the write succeeds
    or throws (an exception is not in its type).  When the write throws, the
    error is caught and one line of error with its cause is printed, and no
    file is written; when it succeeds, one line is printed that names the
    output directory and the file name. *)
Theorem write_failure_caught
  (host : Host) (reporterOptions : ReporterConfigOptions) (cs : list Call) (now : Z) :
  write_boundary host (fst (GenerateReport.run host reporterOptions cs))
    (outputDir reporterOptions ?? defaultOutputDir) now
  /\ write_boundary host (fst (Part000.run host reporterOptions cs))
       (outputDir reporterOptions ?? defaultOutputDir) now.
Proof.
  unfold GenerateReport.run, Part000.run, run.
  change GenerateReport.onTestCaseResult with (completed GenerateReport.buildTest).
  change (Part000.onTestCaseResult host) with (completed (Part000.buildTest host)).
  split; (split; [apply end_only_stop|]);
    apply end_write_outcome; rewrite run_options; apply resolved_outputDir.
Qed.

(** A run of two tests on a file system that refuses the write, and on one
    that takes it. *)
Example write_refused :
  snd (GenerateReport.run (exampleHost false) noOptions twoTests)
  = [ConsoleError
       "Error writing ctrf json report:, Error: EACCES: permission denied, open 'ctrf/ctrf-report.json'"]
  /\ exists text,
       snd (GenerateReport.run (exampleHost true) noOptions twoTests)
       = [WriteFile "ctrf/ctrf-report.json" text;
          ConsoleLog
            "vitest-ctrf-json-reporter: successfully written ctrf json to ctrf/ctrf-report.json"].
Proof. split; [reflexivity|eexists; reflexivity]. Qed.

(** *** A run that was never started *)

Lemma completions_of_results (tcs : list TestCase) :
  completions (map TestCaseResult tcs) = tcs
  /\ started (map TestCaseResult tcs) = false.
Proof.
  induction tcs as [|tc tcs [IH1 IH2]]; [now split|].
  simpl. now rewrite IH1, IH2.
Qed.

Section Unstarted.

Variable host : Host.
Variable buildTest : ReporterConfigOptions -> TestCase -> CtrfTest.

Lemma results_leave_nothing_outside (tcs : list TestCase) (this : GenerateCtrfReport) :
  snd (calls host (completed buildTest) this (map TestCaseResult tcs)) = [].
Proof.
  revert this. induction tcs as [|tc tcs IH]; intros this; [reflexivity|].
  simpl. specialize (IH (completed buildTest this tc)).
  destruct (calls host (completed buildTest) _ (map TestCaseResult tcs)). exact IH.
Qed.

Lemma results_keep_times (tcs : list TestCase) (this : GenerateCtrfReport) :
  let s := results_summary (ctrfReport this) in
  let s' :=
    results_summary
      (ctrfReport (fst (calls host (completed buildTest) this (map TestCaseResult tcs)))) in
  start s' = start s /\ stop s' = stop s.
Proof.
  revert this. induction tcs as [|tc tcs IH]; intros this; [now split|].
  simpl. specialize (IH (completed buildTest this tc)).
  destruct (calls host (completed buildTest) _ (map TestCaseResult tcs)); simpl in *.
  destruct IH as [-> ->].
  unfold completed, updateTotalsFromTestResult; simpl.
  destruct (mapStatus (result tc)); now split.
Qed.

Lemma calls_keep_tool (cs : list Call) (this : GenerateCtrfReport) :
  results_tool_name (ctrfReport (fst (calls host (completed buildTest) this cs)))
  = results_tool_name (ctrfReport this).
Proof.
  revert this. induction cs as [|c cs IH]; intros this; [reflexivity|].
  simpl.
  destruct (call host (completed buildTest) this c) as [this1 out1] eqn:Hc.
  specialize (IH this1).
  destruct (calls host (completed buildTest) this1 cs) as [this2 out2]; simpl in *.
  rewrite IH.
  destruct c as [t|testCase|t]; simpl in Hc; inversion Hc; subst; clear Hc;
    try reflexivity.
  unfold onTestRunStart. destruct (hasEnvironmentDetails _); reflexivity.
Qed.

(** The calls of a run and then its end. *)
Lemma calls_then_end (this : GenerateCtrfReport) (cs : list Call) (now : Z) :
  calls host (completed buildTest) this (cs ++ [TestRunEnd now])
  = (fst (onTestRunEnd host (fst (calls host (completed buildTest) this cs)) now),
     (snd (calls host (completed buildTest) this cs)
        ++ snd (onTestRunEnd host (fst (calls host (completed buildTest) this cs)) now))%list).
Proof.
  rewrite calls_app. cbn [calls call].
  generalize (onTestRunEnd host (fst (calls host (completed buildTest) this cs)) now).
  intros [ended out]. cbn [fst snd]. now rewrite app_nil_r.
Qed.

Lemma unstarted_run (o : ReporterConfigOptions) (tcs : list TestCase) (now : Z) :
  unstarted_report host buildTest o tcs now
    (calls host (completed buildTest) (newReporter o)
       (map TestCaseResult tcs ++ [TestRunEnd now])).
Proof.
  rewrite calls_then_end, results_leave_nothing_outside.
  set (this := fst (calls host (completed buildTest) (newReporter o) (map TestCaseResult tcs))).
  destruct (completions_of_results tcs) as [Hcompl Hstarted].
  destruct (newReporter_fields o) as (Hopts & Hreport & Henv).
  pose proof (run_records host buildTest o (map TestCaseResult tcs)) as Hrecords.
  pose proof (run_options host buildTest o (map TestCaseResult tcs)) as Hoptions.
  pose proof (run_environment host buildTest o (map TestCaseResult tcs)) as Hnone.
  pose proof (results_keep_times tcs (newReporter o)) as [Hstart _].
  pose proof (calls_accounts host buildTest (map TestCaseResult tcs) (newReporter o) 0)
    as Haccounts.
  rewrite Hcompl in Hrecords, Haccounts. rewrite Hstarted in Hnone.
  fold this in Hrecords, Hoptions, Hnone, Hstart, Haccounts.
  cbv zeta in Hnone, Hstart. rewrite Hreport in Hstart. simpl in Hstart.
  assert (Hzero : accounts_for (ctrfReport (newReporter o)) 0)
    by (rewrite Hreport; repeat split).
  specialize (Haccounts Hzero). cbn [Nat.add] in Haccounts.
  assert (Hcounter : forall outcome,
             counter (results_summary (ctrfReport this)) outcome = tally outcome tcs).
  { intros outcome. unfold this.
    rewrite calls_counter, Hcompl, Hreport. now destruct outcome. }
  assert (Htool : results_tool_name (ctrfReport this) = "vitest").
  { unfold this. now rewrite calls_keep_tool, Hreport. }
  destruct (end_only_stop host this now)
    as (Ee & Eo & Ef & En & Et & Ere & Ets & Ec & Es & Est).
  unfold unstarted_report. cbn [fst snd app].
  split; [now rewrite Es|]. split; [exact Est|].
  assert (Hnone' : environment_of (fst (onTestRunEnd host this now))
                     (ctrfReport (fst (onTestRunEnd host this now))) = None).
  { unfold environment_of in *. rewrite Ere, Ee. exact Hnone. }
  split; [exact Hnone'|].
  split; [unfold report_value; now rewrite Hnone', En, Htool|].
  split; [now rewrite Et|].
  split.
  - destruct Haccounts as (Ht & Hl & Hsum). unfold accounts_for.
    rewrite Ets, Et. split; [assumption|]. split; [assumption|].
    rewrite <- Hsum. unfold outcomes.
    change (passed ?s) with (counter s Passed).
    change (failed ?s) with (counter s Failed).
    change (pending ?s) with (counter s Pending).
    change (skipped ?s) with (counter s Skipped).
    change (other ?s) with (counter s Other).
    now rewrite !Ec.
  - split; [intros outcome; now rewrite Ec|].
    apply end_write_outcome. rewrite Hoptions. apply resolved_outputDir.
Qed.

(** With a start before them, the same calls give the same records,
    counters and stop. *)
Lemma started_same_results (o : ReporterConfigOptions) (cs : list Call) (now t0 : Z) :
  same_results
    (fst (calls host (completed buildTest) (newReporter o) (cs ++ [TestRunEnd now])))
    (fst (calls host (completed buildTest) (newReporter o)
            (TestRunStart t0 :: cs ++ [TestRunEnd now]))).
Proof.
  unfold same_results.
  rewrite !run_records, !calls_tests.
  change (TestRunStart t0 :: cs ++ [TestRunEnd now])%list
    with ((TestRunStart t0 :: cs) ++ [TestRunEnd now])%list.
  split; [reflexivity|]. split; [reflexivity|].
  split; [intros outcome; now rewrite !calls_counter|].
  rewrite !calls_then_end. cbn [fst].
  transitivity now; [|symmetry]; apply end_only_stop.
Qed.

End Unstarted.

(** C10.  When the run is never started and test cases complete and the
    run ends, either copy still writes a report: [summary.start] is [0] as the
    constructor left it, there is no environment block, and the records, the
    counters and [summary.stop] are those of the same calls after a start. *)
Theorem report_without_start
  (host : Host) (reporterOptions : ReporterConfigOptions) (tcs : list TestCase) (now : Z) :
  let cs := (map TestCaseResult tcs ++ [TestRunEnd now])%list in
  unstarted_report host GenerateReport.buildTest reporterOptions tcs now
    (GenerateReport.run host reporterOptions cs)
  /\ unstarted_report host (Part000.buildTest host) reporterOptions tcs now
       (Part000.run host reporterOptions cs)
  /\ (forall t0,
         same_results
           (fst (GenerateReport.run host reporterOptions cs))
           (fst (GenerateReport.run host reporterOptions (TestRunStart t0 :: cs)))
         /\ same_results
              (fst (Part000.run host reporterOptions cs))
              (fst (Part000.run host reporterOptions (TestRunStart t0 :: cs)))).
Proof.
  intros cs. unfold cs, GenerateReport.run, Part000.run, run.
  change GenerateReport.onTestCaseResult with (completed GenerateReport.buildTest).
  change (Part000.onTestCaseResult host) with (completed (Part000.buildTest host)).
  split; [apply unstarted_run|]. split; [apply unstarted_run|].
  intros t0. split; apply started_same_results.
Qed.

(** ** Further properties of the code *)

(** *** The name of the file *)

Lemma length_append (a b : string) :
  String.length (a ++ b) = String.length a + String.length b.
Proof. induction a as [|x a IH]; simpl; [reflexivity|now rewrite IH]. Qed.

Lemma substring_all (s : string) : substring 0 (String.length s) s = s.
Proof. induction s as [|x s IH]; simpl; [reflexivity|now rewrite IH]. Qed.

Lemma substring_suffix (a b : string) :
  substring (String.length a) (String.length b) (a ++ b) = b.
Proof. induction a as [|x a IH]; simpl; [apply substring_all|exact IH]. Qed.

(** A text with the suffix appended ends with it. *)
Lemma endsWith_append (s suffix : string) : Js.endsWith (s ++ suffix) suffix = true.
Proof.
  unfold Js.endsWith. rewrite length_append.
  replace (String.length s + String.length suffix - String.length suffix)
    with (String.length s) by lia.
  rewrite substring_suffix, String.eqb_refl.
  apply andb_true_intro. split; [apply Nat.leb_le; lia|reflexivity].
Qed.

Lemma newReporter_filename (o : ReporterConfigOptions) :
  filename (newReporter o) = normalized_name o.
Proof.
  unfold newReporter, normalized_name, setFilename. cbn [reporterConfigOptions resolveOptions outputFile].
  destruct (Js.endsWith _ _); reflexivity.
Qed.

Lemma normalized_name_json (o : ReporterConfigOptions) :
  Js.endsWith (normalized_name o) ".json" = true.
Proof.
  unfold normalized_name.
  destruct (Js.endsWith (outputFile o ?? defaultOutputFile) ".json") eqn:E;
    [exact E|apply endsWith_append].
Qed.

(** The file name of an instance always ends in [.json]: [setFilename]
    keeps a name that ends so and appends [.json] to any other, so that
    setting the name it has set changes nothing; and the name that the
    constructor sets from [outputFile], or from [ctrf-report.json] without it,
    stays through every call of a run of either copy. *)
Theorem filename_ends_in_json
  (host : Host) (reporterOptions : ReporterConfigOptions) (cs : list Call)
  (this : GenerateCtrfReport) (name : string) :
  Js.endsWith (filename (setFilename this name)) ".json" = true
  /\ setFilename (setFilename this name) (filename (setFilename this name))
     = setFilename this name
  /\ filename (fst (GenerateReport.run host reporterOptions cs))
     = normalized_name reporterOptions
  /\ filename (fst (Part000.run host reporterOptions cs))
     = normalized_name reporterOptions
  /\ Js.endsWith (normalized_name reporterOptions) ".json" = true.
Proof.
  assert (Hset : Js.endsWith (filename (setFilename this name)) ".json" = true).
  { unfold setFilename. destruct (Js.endsWith name ".json") eqn:E; simpl;
      [exact E|apply endsWith_append]. }
  split; [exact Hset|]. split.
  - unfold setFilename at 1. rewrite Hset. now destruct (setFilename this name).
  - unfold GenerateReport.run, Part000.run, run.
    change GenerateReport.onTestCaseResult with (completed GenerateReport.buildTest).
    change (Part000.onTestCaseResult host) with (completed (Part000.buildTest host)).
    rewrite (proj2 (calls_keep_options host GenerateReport.buildTest cs _)).
    rewrite (proj2 (calls_keep_options host (Part000.buildTest host) cs _)).
    rewrite newReporter_filename.
    repeat split. apply normalized_name_json.
Qed.

(** *** The counters, one by one *)

Lemma tally_count (outcome : CtrfTestState) (p : string -> bool) (tcs : list TestCase) :
  (forall r, String.eqb (state_name (mapStatus r)) (state_name outcome) = p (state r)) ->
  tally outcome tcs = count_state p tcs.
Proof.
  intros Hp. unfold tally, count_state. do 2 f_equal.
  apply filter_ext. intros tc. apply Hp.
Qed.

Lemma mapStatus_name (r : TestResult) :
  String.eqb (state_name (mapStatus r)) "passed" = String.eqb (state r) "passed"
  /\ String.eqb (state_name (mapStatus r)) "failed" = String.eqb (state r) "failed"
  /\ String.eqb (state_name (mapStatus r)) "skipped" = String.eqb (state r) "skipped"
  /\ String.eqb (state_name (mapStatus r)) "pending" = String.eqb (state r) "pending"
  /\ String.eqb (state_name (mapStatus r)) "other" = unrecognized (state r).
Proof.
  unfold mapStatus, unrecognized, recognized. cbv zeta. cbn [existsb].
  destruct (String.eqb_spec (state r) "passed") as [E|N1]; [rewrite E; repeat split|].
  destruct (String.eqb_spec (state r) "failed") as [E|N2]; [rewrite E; repeat split|].
  destruct (String.eqb_spec (state r) "skipped") as [E|N3]; [rewrite E; repeat split|].
  destruct (String.eqb_spec (state r) "pending") as [E|N4]; repeat split.
Qed.

Section Counters.

Variable host : Host.
Variable buildTest : ReporterConfigOptions -> TestCase -> CtrfTest.

Lemma run_counters (o : ReporterConfigOptions) (cs : list Call) :
  let s := results_summary
             (ctrfReport (fst (calls host (completed buildTest) (newReporter o) cs))) in
  passed s = count_state (fun x => String.eqb x "passed") (completions cs)
  /\ failed s = count_state (fun x => String.eqb x "failed") (completions cs)
  /\ skipped s = count_state (fun x => String.eqb x "skipped") (completions cs)
  /\ pending s = count_state (fun x => String.eqb x "pending") (completions cs)
  /\ other s = count_state unrecognized (completions cs).
Proof.
  intros s.
  assert (H : forall outcome, counter s outcome = tally outcome (completions cs)).
  { intros outcome. unfold s. rewrite calls_counter.
    destruct (newReporter_fields o) as (_ & -> & _). now destruct outcome. }
  pose proof (H Passed) as H1. pose proof (H Failed) as H2.
  pose proof (H Skipped) as H3. pose proof (H Pending) as H4. pose proof (H Other) as H5.
  cbn [counter] in H1, H2, H3, H4, H5.
  rewrite H1, H2, H3, H4, H5.
  repeat split; apply tally_count; intros r; apply mapStatus_name.
Qed.

(** A counter never goes down. *)
Lemma calls_counter_le (outcome : CtrfTestState) (cs : list Call) (this : GenerateCtrfReport) :
  (counter (results_summary (ctrfReport this)) outcome
   <= counter (results_summary
                 (ctrfReport (fst (calls host (completed buildTest) this cs)))) outcome)%Z.
Proof. rewrite calls_counter. unfold tally. lia. Qed.

End Counters.

(** At any point of a run of either copy, [passed], [failed], [skipped] and
    [pending] are the numbers of completed test cases whose native state is
    that very word, and [other] is the number of those whose native state is
    any other string. *)
Theorem counters_by_native_state
  (host : Host) (reporterOptions : ReporterConfigOptions) (cs : list Call) :
  let counts (s : Summary) :=
    passed s = count_state (fun x => String.eqb x "passed") (completions cs)
    /\ failed s = count_state (fun x => String.eqb x "failed") (completions cs)
    /\ skipped s = count_state (fun x => String.eqb x "skipped") (completions cs)
    /\ pending s = count_state (fun x => String.eqb x "pending") (completions cs)
    /\ other s = count_state unrecognized (completions cs) in
  counts (results_summary (ctrfReport (fst (GenerateReport.run host reporterOptions cs))))
  /\ counts (results_summary (ctrfReport (fst (Part000.run host reporterOptions cs)))).
Proof.
  intros counts. split.
  - exact (run_counters host GenerateReport.buildTest reporterOptions cs).
  - exact (run_counters host (Part000.buildTest host) reporterOptions cs).
Qed.

(** Whatever calls follow, from any state of either copy, no counter and
    not [summary.tests] ever goes down, and the records that are there stay,
    in their places, at the head of the records. *)
Theorem counters_and_records_only_grow
  (host : Host) (this : GenerateCtrfReport) (cs : list Call) (outcome : CtrfTestState) :
  let grows (after : GenerateCtrfReport) :=
    (counter (results_summary (ctrfReport this)) outcome
     <= counter (results_summary (ctrfReport after)) outcome)%Z
    /\ (tests (results_summary (ctrfReport this))
        <= tests (results_summary (ctrfReport after)))%Z
    /\ firstn (List.length (results_tests (ctrfReport this)))
         (results_tests (ctrfReport after))
       = results_tests (ctrfReport this) in
  grows (fst (calls host GenerateReport.onTestCaseResult this cs))
  /\ grows (fst (calls host (Part000.onTestCaseResult host) this cs)).
Proof.
  intros grows.
  change GenerateReport.onTestCaseResult with (completed GenerateReport.buildTest).
  change (Part000.onTestCaseResult host) with (completed (Part000.buildTest host)).
  unfold grows. rewrite !calls_tests, !calls_records.
  repeat split; try apply calls_counter_le; try lia;
    now rewrite firstn_app, Nat.sub_diag, firstn_all, app_nil_r.
Qed.

(** *** The times and what is left outside *)

Section Times.

Variable host : Host.
Variable buildTest : ReporterConfigOptions -> TestCase -> CtrfTest.

Lemma start_summary (this : GenerateCtrfReport) (now : Z) :
  results_summary (ctrfReport (onTestRunStart this now))
  = with_start (results_summary (ctrfReport this)) now
  /\ results_tests (ctrfReport (onTestRunStart this now)) = results_tests (ctrfReport this)
  /\ results_tool_name (ctrfReport (onTestRunStart this now))
     = results_tool_name (ctrfReport this)
  /\ filename (onTestRunStart this now) = filename this.
Proof.
  unfold onTestRunStart. destruct (hasEnvironmentDetails _); repeat split.
Qed.

Lemma calls_times (cs : list Call) (this : GenerateCtrfReport) :
  let s := results_summary (ctrfReport this) in
  let s' := results_summary (ctrfReport (fst (calls host (completed buildTest) this cs))) in
  start s' = last_start cs (start s) /\ stop s' = last_stop cs (stop s).
Proof.
  revert this. induction cs as [|c cs IH]; intros this; [now split|].
  simpl.
  destruct (call host (completed buildTest) this c) as [this1 out1] eqn:Hc.
  specialize (IH this1).
  destruct (calls host (completed buildTest) this1 cs) as [this2 out2]. simpl in *.
  destruct IH as [-> ->].
  destruct c as [t|testCase|t]; simpl in Hc; inversion Hc; subst; clear Hc.
  - destruct (start_summary this t) as (-> & _). now split.
  - unfold completed, updateTotalsFromTestResult; simpl.
    destruct (mapStatus (result testCase)); now split.
  - now split.
Qed.

Lemma end_effects (this : GenerateCtrfReport) (now : Z) :
  let out := snd (onTestRunEnd host this now) in
  let path :=
    path_join host (outputDir (reporterConfigOptions this) ?? defaultOutputDir)
      (filename this) in
  Forall (run_effect path) out
  /\ List.length (console_lines out) = 1
  /\ (List.length (files_written out) <= 1)%nat.
Proof.
  unfold onTestRunEnd, writeReportToFile. cbn [snd reporterConfigOptions filename with_report].
  destruct (fs_writeFileSync host _ _); cbn.
  - repeat split; [repeat constructor|lia].
  - repeat split; [repeat constructor|lia].
Qed.

(** What the calls leave outside: only lines on the console and writes to
    the one file, one line for each run end and at most one write for each. *)
Lemma calls_effects (cs : list Call) (this : GenerateCtrfReport) :
  let out := snd (calls host (completed buildTest) this cs) in
  let path :=
    path_join host (outputDir (reporterConfigOptions this) ?? defaultOutputDir)
      (filename this) in
  Forall (run_effect path) out
  /\ List.length (console_lines out) = ends cs
  /\ (List.length (files_written out) <= ends cs)%nat.
Proof.
  revert this. induction cs as [|c cs IH]; intros this; [repeat split; constructor|].
  simpl.
  pose proof (call_keeps_options host buildTest this c) as [Ho Hf].
  destruct (call host (completed buildTest) this c) as [this1 out1] eqn:Hc.
  specialize (IH this1). simpl in Ho, Hf.
  destruct (calls host (completed buildTest) this1 cs) as [this2 out2]. simpl in *.
  rewrite Ho, Hf in IH. destruct IH as (IH1 & IH2 & IH3).
  unfold console_lines, files_written in *.
  rewrite !filter_app, !length_app.
  destruct c as [t|testCase|t]; simpl in Hc; inversion Hc; subst; clear Hc.
  - repeat split; assumption.
  - repeat split; assumption.
  - destruct (end_effects this t) as (E1 & E2 & E3).
    unfold console_lines, files_written, onTestRunEnd in E1, E2, E3.
    cbn [snd ctrfReport with_report] in E1, E2, E3.
    split; [apply Forall_app; now split|]. split; lia.
Qed.

End Times.

(** In a run of either copy [summary.start] is the time of the last run
    start and [summary.stop] the time of the last run end, each [0] when there
    was no such call; test cases change neither. *)
Theorem times_of_last_calls
  (host : Host) (reporterOptions : ReporterConfigOptions) (cs : list Call) :
  let times (s : Summary) :=
    start s = last_start cs 0 /\ stop s = last_stop cs 0 in
  times (results_summary (ctrfReport (fst (GenerateReport.run host reporterOptions cs))))
  /\ times (results_summary (ctrfReport (fst (Part000.run host reporterOptions cs)))).
Proof.
  intros times. unfold times, GenerateReport.run, Part000.run, run.
  change GenerateReport.onTestCaseResult with (completed GenerateReport.buildTest).
  change (Part000.onTestCaseResult host) with (completed (Part000.buildTest host)).
  pose proof (calls_times host GenerateReport.buildTest cs (newReporter reporterOptions)) as Ha.
  pose proof (calls_times host (Part000.buildTest host) cs (newReporter reporterOptions)) as Hb.
  destruct (newReporter_fields reporterOptions) as (_ & Hr & _).
  cbv zeta in Ha, Hb. rewrite Hr in Ha, Hb. split; [exact Ha|exact Hb].
Qed.

(** In a run of either copy nothing is left outside but by a run end: each
    run end prints exactly one line and writes at most one file, always the
    file of the resolved directory and the normalised name; no other call
    prints or writes, and no call of a run makes a directory. *)
Theorem effects_only_at_run_end
  (host : Host) (reporterOptions : ReporterConfigOptions) (cs : list Call) :
  let path :=
    path_join host (outputDir reporterOptions ?? defaultOutputDir)
      (normalized_name reporterOptions) in
  let bounded (out : list Effect) :=
    Forall (run_effect path) out
    /\ List.length (console_lines out) = ends cs
    /\ (List.length (files_written out) <= ends cs)%nat in
  bounded (snd (GenerateReport.run host reporterOptions cs))
  /\ bounded (snd (Part000.run host reporterOptions cs)).
Proof.
  intros path bounded. unfold bounded, path, GenerateReport.run, Part000.run, run.
  change GenerateReport.onTestCaseResult with (completed GenerateReport.buildTest).
  change (Part000.onTestCaseResult host) with (completed (Part000.buildTest host)).
  pose proof (calls_effects host GenerateReport.buildTest cs (newReporter reporterOptions)) as Ha.
  pose proof (calls_effects host (Part000.buildTest host) cs (newReporter reporterOptions))
    as Hb.
  cbv zeta in Ha, Hb.
  rewrite newReporter_filename in Ha, Hb.
  destruct (newReporter_fields reporterOptions) as (Ho & _ & _).
  rewrite Ho, resolved_outputDir in Ha, Hb. cbn [nullish] in Ha, Hb.
  split; [exact Ha|exact Hb].
Qed.

(** *** A run that is started again *)

Lemma start_twice
  (o : ReporterConfigOptions) (after_start : bool) (this : GenerateCtrfReport) (t1 t2 : Z) :
  environment_state o after_start this ->
  onTestRunStart (onTestRunStart this t1) t2 = onTestRunStart this t2.
Proof.
  intros Hstate.
  pose proof (start_environment_state o after_start this t1 Hstate) as HA.
  pose proof (start_environment_state o true _ t2 HA) as (HBo & HBe & HBr).
  pose proof (start_environment_state o after_start this t2 Hstate) as (HCo & HCe & HCr).
  destruct (start_summary this t1) as (A1 & A2 & A3 & A4).
  destruct (start_summary (onTestRunStart this t1) t2) as (B1 & B2 & B3 & B4).
  destruct (start_summary this t2) as (C1 & C2 & C3 & C4).
  apply reporter_eq.
  - apply report_eq.
    + now rewrite B3, A3, C3.
    + now rewrite B1, A1, C1.
    + now rewrite B2, A2, C2.
    + now rewrite HBr, HCr.
  - now rewrite HBe, HCe.
  - now rewrite HBo, HCo.
  - now rewrite B4, A4, C4.
Qed.

Lemma run_environment_state
  (host : Host) (buildTest : ReporterConfigOptions -> TestCase -> CtrfTest)
  (o : ReporterConfigOptions) (cs : list Call) :
  environment_state o (started cs)
    (fst (calls host (completed buildTest) (newReporter o) cs)).
Proof.
  apply (calls_environment_state host buildTest o cs false).
  destruct (newReporter_fields o) as (Ho & Hr & He).
  split; [exact Ho|]. split; [exact He|]. now rewrite Hr.
Qed.

(** At any point of a run of either copy, a run start that follows a run
    start undoes nothing and adds nothing: the instance is the one the second
    start alone would give, with the same environment block and the time of
    the second start. *)
Theorem start_after_start
  (host : Host) (reporterOptions : ReporterConfigOptions) (cs : list Call) (t1 t2 : Z) :
  let again (this : GenerateCtrfReport) :=
    onTestRunStart (onTestRunStart this t1) t2 = onTestRunStart this t2 in
  again (fst (GenerateReport.run host reporterOptions cs))
  /\ again (fst (Part000.run host reporterOptions cs)).
Proof.
  intros again. unfold again, GenerateReport.run, Part000.run, run.
  change GenerateReport.onTestCaseResult with (completed GenerateReport.buildTest).
  change (Part000.onTestCaseResult host) with (completed (Part000.buildTest host)).
  split; eapply start_twice; apply run_environment_state.
Qed.

(** *** What a record holds *)

Lemma Forall2_map {A B : Type} (P : A -> B -> Prop) (f : A -> B) (xs : list A) :
  (forall x, P x (f x)) -> Forall2 P xs (map f xs).
Proof. intros H. induction xs; simpl; constructor; auto. Qed.

Lemma buildTest_required (host : Host) (o : ReporterConfigOptions) (testCase : TestCase) :
  required_of testCase (GenerateReport.buildTest o testCase)
  /\ required_of testCase (Part000.buildTest host o testCase).
Proof.
  unfold required_of, GenerateReport.buildTest, Part000.buildTest.
  destruct (minimal o) as [[|]|];
    destruct (diagnostic testCase) as [d|];
    try destruct (Js.get (Part000.extractFailureDetails host testCase) "line");
    repeat split.
Qed.

Lemma buildTest_optional (host : Host) (o : ReporterConfigOptions) (testCase : TestCase) :
  minimal o = Some false ->
  optional_of o testCase (GenerateReport.buildTest o testCase)
  /\ optional_of o testCase (Part000.buildTest host o testCase).
Proof.
  intros Hmin.
  unfold optional_of, GenerateReport.buildTest, Part000.buildTest. rewrite Hmin.
  destruct (diagnostic testCase) as [[dur retry [|]]|];
    destruct (Js.get (Part000.extractFailureDetails host testCase) "line");
    repeat split.
Qed.

(** The records of a run of either copy are one for each completed test
    case, in the order of completion, whatever run starts and run ends come
    between; each begins with [name], [duration] and [status], which are the
    full name of the test case, its duration or [0] when it has no diagnostic,
    and the outcome its native state maps to. *)
Theorem records_in_order
  (host : Host) (reporterOptions : ReporterConfigOptions) (cs : list Call) :
  Forall2 required_of (completions cs)
    (results_tests (ctrfReport (fst (GenerateReport.run host reporterOptions cs))))
  /\ Forall2 required_of (completions cs)
       (results_tests (ctrfReport (fst (Part000.run host reporterOptions cs)))).
Proof.
  unfold GenerateReport.run, Part000.run, run.
  change GenerateReport.onTestCaseResult with (completed GenerateReport.buildTest).
  change (Part000.onTestCaseResult host) with (completed (Part000.buildTest host)).
  rewrite !run_records.
  split; apply Forall2_map; intros testCase; apply (buildTest_required host).
Qed.

(** When minimal mode is off, every record of a run of either copy has
    [rawStatus] equal to the native state as it came, [type] equal to the
    [testType] option or [unit], [filePath] equal to the module of the test
    case, [retries] and [flaky] from the diagnostic or [0] and [false]
    without one, and [suite] equal to [name]; its properties come in the
    order [name], [duration], [status], [message], [trace], [line] if there is
    one, [rawStatus], [type], [filePath], [retries], [flaky], [suite]. *)
Theorem records_optional_fields
  (host : Host) (reporterOptions : ReporterConfigOptions) (cs : list Call) :
  minimal reporterOptions ?? false = false ->
  Forall2 (optional_of reporterOptions) (completions cs)
    (results_tests (ctrfReport (fst (GenerateReport.run host reporterOptions cs))))
  /\ Forall2 (optional_of reporterOptions) (completions cs)
       (results_tests (ctrfReport (fst (Part000.run host reporterOptions cs)))).
Proof.
  intros Hmin.
  unfold GenerateReport.run, Part000.run, run.
  change GenerateReport.onTestCaseResult with (completed GenerateReport.buildTest).
  change (Part000.onTestCaseResult host) with (completed (Part000.buildTest host)).
  rewrite !run_records.
  assert (Hres : minimal (resolveOptions reporterOptions) = Some false)
    by (unfold resolveOptions; cbn [minimal]; now rewrite Hmin).
  assert (Htype : forall testCase test,
             optional_of (resolveOptions reporterOptions) testCase test ->
             optional_of reporterOptions testCase test).
  { unfold optional_of. intros testCase test (H1 & H2 & H3).
    split; [exact H1|]. split; [|exact H3].
    rewrite H2. unfold resolveOptions; cbn [testType nullish]. reflexivity. }
  split; apply Forall2_map; intros testCase; apply Htype;
    apply (buildTest_optional host _ testCase Hres).
Qed.

(** The run of two tests with the default options: the second record, of
    the failed test, has the raw status [failed] and the type [unit]. *)
Lemma records_optional_fields_witness :
  minimal noOptions ?? false = false
  /\ Forall2 (optional_of noOptions) (completions twoTests)
       (results_tests (ctrfReport (fst (GenerateReport.run (exampleHost true) noOptions twoTests))))
  /\ Forall2 (optional_of noOptions) (completions twoTests)
       (results_tests (ctrfReport (fst (Part000.run (exampleHost true) noOptions twoTests)))).
Proof.
  split; [reflexivity|].
  exact (records_optional_fields (exampleHost true) noOptions twoTests eq_refl).
Defined.

(** *** When the two copies cannot differ *)

Lemma buildTest_minimal (host : Host) (o : ReporterConfigOptions) (testCase : TestCase) :
  minimal o = Some true ->
  Part000.buildTest host o testCase = GenerateReport.buildTest o testCase.
Proof.
  intros Hmin. unfold Part000.buildTest, GenerateReport.buildTest. now rewrite Hmin.
Qed.

(** No line is looked for when the test did not fail, when none of its
    errors has a stack with a text, and when its module has no path. *)
Lemma no_line_cases (host : Host) (testCase : TestCase) :
  state (result testCase) <> "failed"
  \/ stacks_with_text (errors (result testCase)) = []
  \/ moduleId (module testCase) = "" ->
  no_line host testCase.
Proof.
  intros H. unfold no_line. rewrite failure_line. cbv zeta.
  destruct H as [H | [H | H]].
  - now rewrite (not_failed testCase H).
  - rewrite H. cbn [separated]. now rewrite andb_false_r.
  - rewrite H. cbn [String.eqb negb]. now rewrite !andb_false_r.
Qed.

(** The two copies do the same on a run, in the instance and in what they
    leave outside, when minimal mode is on, and also when every completed
    test case either did not fail, or has no error with a stack that has a
    text, or has a module without a path: the one thing [part_000] adds, the
    line, is then never looked for. *)
Theorem copies_same_without_traces
  (host : Host) (reporterOptions : ReporterConfigOptions) (cs : list Call) :
  minimal reporterOptions = Some true
  \/ Forall
       (fun testCase =>
          state (result testCase) <> "failed"
          \/ stacks_with_text (errors (result testCase)) = []
          \/ moduleId (module testCase) = "") (completions cs) ->
  Part000.run host reporterOptions cs = GenerateReport.run host reporterOptions cs.
Proof.
  intros H.
  unfold GenerateReport.run, Part000.run, run.
  change GenerateReport.onTestCaseResult with (completed GenerateReport.buildTest).
  change (Part000.onTestCaseResult host) with (completed (Part000.buildTest host)).
  apply calls_same. apply Forall_forall. intros testCase Hin.
  destruct H as [Hmin | Hall].
  - apply buildTest_minimal.
    destruct (newReporter_fields reporterOptions) as (-> & _ & _).
    unfold resolveOptions; cbn [minimal]. now rewrite Hmin.
  - apply buildTest_no_line, no_line_cases.
    revert testCase Hin. now apply Forall_forall.
Qed.

(** The run of two tests, of which the failed one has no stack. *)
Lemma copies_same_without_traces_witness :
  Forall
    (fun testCase =>
       state (result testCase) <> "failed"
       \/ stacks_with_text (errors (result testCase)) = []
       \/ moduleId (module testCase) = "") (completions twoTests)
  /\ Part000.run (exampleHost true) noOptions twoTests
     = GenerateReport.run (exampleHost true) noOptions twoTests
  /\ Part000.run (exampleHost true) minimalOptions
       [TestRunStart 1000; TestCaseResult failedAt42; TestRunEnd 2000]
     = GenerateReport.run (exampleHost true) minimalOptions
         [TestRunStart 1000; TestCaseResult failedAt42; TestRunEnd 2000].
Proof.
  assert (Hall :
            Forall
              (fun testCase =>
                 state (result testCase) <> "failed"
                 \/ stacks_with_text (errors (result testCase)) = []
                 \/ moduleId (module testCase) = "") (completions twoTests)).
  { constructor; [left; discriminate|]. constructor; [right; left; reflexivity|constructor]. }
  split; [exact Hall|]. split.
  - exact (copies_same_without_traces (exampleHost true) noOptions twoTests (or_intror Hall)).
  - exact (copies_same_without_traces (exampleHost true) minimalOptions
             [TestRunStart 1000; TestCaseResult failedAt42; TestRunEnd 2000]
             (or_introl eq_refl)).
Defined.

(** *** What the matcher can return *)

Lemma matcher_star (greedy : bool) (a : Regex.re) (k : Regex.cont) (s : string)
  (c : Regex.captures) :
  Regex.matcher (Regex.Star greedy a) k s c
  = star_loop (Regex.matcher a) greedy k (S (String.length s)) s c.
Proof. reflexivity. Qed.

Lemma star_loop_sound (greedy : bool) (a : Regex.re) (k : Regex.cont) :
  (forall k' s c r,
      Regex.matcher a k' s c = Some r ->
      exists s' c', matches a s c s' c' /\ k' s' c' = Some r) ->
  forall fuel s c r,
    star_loop (Regex.matcher a) greedy k fuel s c = Some r ->
    exists s' c', matches (Regex.Star greedy a) s c s' c' /\ k s' c' = Some r.
Proof.
  intros IHa. induction fuel as [|fuel IH]; intros s c r H.
  - exists s, c. split; [constructor|exact H].
  - change (star_loop (Regex.matcher a) greedy k (S fuel) s c)
      with (let again :=
              Regex.matcher a
                (fun s' c' =>
                   if (String.length s' <? String.length s)%nat
                   then star_loop (Regex.matcher a) greedy k fuel s' c'
                   else None) s c in
            if greedy then Regex.orelse again (k s c) else Regex.orelse (k s c) again) in H.
    cbv zeta in H.
    set (again := Regex.matcher a _ s c) in H.
    assert (Hagain : again = Some r ->
                     exists s' c', matches (Regex.Star greedy a) s c s' c' /\ k s' c' = Some r).
    { intros Ha. apply IHa in Ha. destruct Ha as (s1 & c1 & M1 & K1).
      destruct (String.length s1 <? String.length s)%nat; [|discriminate].
      apply IH in K1. destruct K1 as (s2 & c2 & M2 & K2).
      exists s2, c2. split; [|exact K2]. now apply matches_star_more with s1 c1. }
    assert (Hstop : k s c = Some r ->
                    exists s' c', matches (Regex.Star greedy a) s c s' c' /\ k s' c' = Some r).
    { intros Hk. exists s, c. split; [constructor|exact Hk]. }
    destruct greedy; unfold Regex.orelse in H.
    + destruct again as [x|]; [apply Hagain; exact H|apply Hstop; exact H].
    + destruct (k s c) as [x|]; [apply Hstop; exact H|apply Hagain; exact H].
Qed.

(** Whatever the matcher returns comes from a match of the pattern and from
    its continuation on what the match left. *)
Lemma matcher_sound (a : Regex.re) :
  forall k s c r,
    Regex.matcher a k s c = Some r ->
    exists s' c', matches a s c s' c' /\ k s' c' = Some r.
Proof.
  induction a as [|accept|a1 IH1 a2 IH2|a1 IH1 a2 IH2|greedy a1 IH1|i a1 IH1|];
    intros k s c r H.
  - exists s, c. split; [constructor|exact H].
  - cbn [Regex.matcher] in H. destruct s as [|x rest]; [discriminate|].
    destruct (accept x) eqn:Hx; [|discriminate].
    exists rest, c. split; [now constructor|exact H].
  - cbn [Regex.matcher] in H. apply IH1 in H. destruct H as (s1 & c1 & M1 & H).
    apply IH2 in H. destruct H as (s2 & c2 & M2 & H).
    exists s2, c2. split; [now apply matches_seq with s1 c1|exact H].
  - cbn [Regex.matcher] in H. unfold Regex.orelse in H.
    destruct (Regex.matcher a1 k s c) as [x|] eqn:H1.
    + rewrite <- H in *. apply IH1 in H1. destruct H1 as (s' & c' & M & K).
      exists s', c'. split; [now apply matches_alt_left|exact K].
    + apply IH2 in H. destruct H as (s' & c' & M & K).
      exists s', c'. split; [now apply matches_alt_right|exact K].
  - rewrite matcher_star in H. now apply star_loop_sound in H.
  - cbn [Regex.matcher] in H. apply IH1 in H. destruct H as (s' & c' & M & K).
    eexists s', _. split; [apply matches_group; exact M|exact K].
  - cbn [Regex.matcher] in H. destruct s; [|discriminate].
    exists "", c. split; [constructor|exact H].
Qed.

(** A match leaves a suffix of the input. *)
Lemma matches_suffix a s c s' c' :
  matches a s c s' c' -> exists text, s = text ++ s'.
Proof.
  induction 1 as [s c|accept x rest c Hx|a b s c s1 c1 s2 c2 _ [p ->] _ [q ->]| | |
                  |greedy a s c s1 c1 s2 c2 _ [p ->] _ [q ->]| |].
  - now exists "".
  - now exists (String x "").
  - exists (p ++ q). now rewrite append_assoc.
  - assumption.
  - assumption.
  - now exists "".
  - exists (p ++ q). now rewrite append_assoc.
  - assumption.
  - now exists "".
Qed.

(** A match adds captures of its own groups in front of the captures it
    started from. *)
Lemma matches_captures a s c s' c' :
  matches a s c s' c' ->
  exists added, c' = (added ++ c)%list /\ Forall (fun e => In (fst e) (groups a)) added.
Proof.
  induction 1 as [s c|accept x rest c Hx
                  |a b s c s1 c1 s2 c2 _ (d1 & -> & F1) _ (d2 & -> & F2)
                  |a b s c s' c' _ (d & -> & F)|a b s c s' c' _ (d & -> & F)
                  |greedy a s c
                  |greedy a s c s1 c1 s2 c2 _ (d1 & -> & F1) _ (d2 & -> & F2)
                  |i a s c s' c' _ (d & -> & F)|c].
  - now exists [].
  - now exists [].
  - exists (d2 ++ d1)%list. split; [now rewrite app_assoc|].
    apply Forall_app. split; eapply Forall_impl; try eassumption;
      cbn [groups]; intros e He; apply in_or_app; auto.
  - exists d. split; [reflexivity|].
    eapply Forall_impl; try eassumption. cbn [groups]. intros e He; apply in_or_app; auto.
  - exists d. split; [reflexivity|].
    eapply Forall_impl; try eassumption. cbn [groups]. intros e He; apply in_or_app; auto.
  - now exists [].
  - exists (d2 ++ d1)%list. split; [now rewrite app_assoc|].
    apply Forall_app. split; assumption.
  - exists ((i, substring 0 (String.length (s) - String.length s') s) :: d).
    split; [reflexivity|]. constructor; [now left|].
    eapply Forall_impl; try eassumption. intros e He. now right.
  - now exists [].
Qed.

Lemma capture_after (added c : Regex.captures) (i : nat) :
  Forall (fun e => fst e <> i) added ->
  Regex.capture (added ++ c)%list i = Regex.capture c i.
Proof.
  induction 1 as [|[j text] added Hj _ IH]; [reflexivity|].
  simpl in *. destruct (Nat.eqb_spec j i); [contradiction|exact IH].
Qed.

Lemma seq_inv a b s c s2 c2 :
  matches (Regex.Seq a b) s c s2 c2 ->
  exists s1 c1, matches a s c s1 c1 /\ matches b s1 c1 s2 c2.
Proof. inversion 1; subst; eauto. Qed.

Lemma group_inv i a s c s' c'' :
  matches (Regex.Group i a) s c s' c'' ->
  exists c',
    matches a s c s' c'
    /\ c'' = (i, substring 0 (String.length s - String.length s') s) :: c'.
Proof. inversion 1; subst; eauto. Qed.

Lemma chr_inv accept s c s' c' :
  matches (Regex.Chr accept) s c s' c' ->
  exists x, s = String x s' /\ accept x = true /\ c' = c.
Proof. inversion 1; subst; eauto. Qed.

(** A star of one character matches a text of such characters. *)
Lemma star_chr_inv greedy accept s c s' c' :
  matches (Regex.Star greedy (Regex.Chr accept)) s c s' c' ->
  exists text, s = text ++ s' /\ all_chars accept text = true /\ c' = c.
Proof.
  remember (Regex.Star greedy (Regex.Chr accept)) as a eqn:Ea.
  induction 1 as [| | | | |g a0 s c|g a0 s c s1 c1 s2 c2 M1 _ M2 IH| |];
    try discriminate Ea.
  - now exists "".
  - inversion Ea; subst.
    apply chr_inv in M1. destruct M1 as (x & -> & Hx & ->).
    destruct (IH eq_refl) as (text & -> & Hall & ->).
    exists (String x text). repeat split. simpl. now rewrite Hx, Hall.
Qed.

Lemma substring_prefix (text rest : string) :
  substring 0 (String.length (text ++ rest) - String.length rest) (text ++ rest) = text.
Proof.
  rewrite length_append.
  replace (String.length text + String.length rest - String.length rest)
    with (String.length text) by lia.
  induction text as [|x text IH]; simpl.
  - now destruct rest.
  - now rewrite IH.
Qed.

(** What the group of [\d+] captures: one digit at least, and digits only. *)
Lemma digits_inv i s c s' c' :
  matches (Regex.Group i (Regex.Plus (Regex.Chr Regex.digit))) s c s' c' ->
  exists x text,
    c' = (i, String x text) :: c
    /\ all_chars Regex.digit (String x text) = true.
Proof.
  intros M. apply group_inv in M. destruct M as (c1 & M & ->).
  unfold Regex.Plus in M. apply seq_inv in M. destruct M as (s1 & c2 & M1 & M2).
  apply chr_inv in M1. destruct M1 as (x & -> & Hx & ->).
  apply star_chr_inv in M2. destruct M2 as (text & -> & Hall & ->).
  exists x, text. split.
  - change (String x (text ++ s')) with (String x text ++ s').
    now rewrite substring_prefix.
  - simpl. now rewrite Hx, Hall.
Qed.

(** A line that the pattern of a stack frame matches has a line number:
    the third capture is there, and it is a text of one digit at least. *)
Lemma nodeRe_line (line : string) (parts : Regex.captures) :
  Regex.exec Part000.nodeRe line = Some parts ->
  exists x text,
    Regex.capture parts 3 = Some (String x text)
    /\ all_chars Regex.digit (String x text) = true.
Proof.
  unfold Regex.exec. intros H. apply matcher_sound in H.
  destruct H as (s' & c' & M & K). inversion K; subst; clear K.
  unfold Part000.nodeRe in M.
  do 6 (apply seq_inv in M; destruct M as (? & ? & _ & M)).
  apply seq_inv in M. destruct M as (s7 & c7 & M3 & Mtail).
  apply digits_inv in M3. destruct M3 as (d & text & -> & Hall).
  apply matches_captures in Mtail. destruct Mtail as (added & -> & Hadded).
  exists d, text. split; [|exact Hall].
  rewrite capture_after; [simpl; reflexivity|].
  eapply Forall_impl; [|exact Hadded].
  intros e He. cbv beta in *. remember (fst e) as j eqn:Ej. clear Ej.
  vm_compute in He. destruct He as [<-|[]]. discriminate.
Qed.

Lemma to_number_digits (text : string) :
  all_chars Regex.digit text = true -> (0 <= to_number text)%Z.
Proof.
  unfold to_number.
  enough (H : forall acc, (0 <= acc)%Z -> all_chars Regex.digit text = true ->
                          (0 <= (fix go (acc : Z) (s : string) : Z :=
                                   match s with
                                   | EmptyString => acc
                                   | String c rest =>
                                       go (10 * acc + (Z.of_nat (nat_of_ascii c) - 48))%Z rest
                                   end) acc text)%Z)
    by (apply H; lia).
  induction text as [|x text IH]; intros acc Hacc Hall; [exact Hacc|].
  simpl in Hall. apply andb_prop in Hall. destruct Hall as [Hx Hall].
  apply IH; [|exact Hall].
  unfold Regex.digit, Regex.code in Hx. apply andb_prop in Hx. destruct Hx as [Hlo _].
  apply Nat.leb_le in Hlo. lia.
Qed.

(** A line of a trace gives no frame or one frame, and a proper one. *)
Lemma frame_of_line_proper (line : string) :
  frame_of_line line = []
  \/ exists frame, frame_of_line line = [frame] /\ proper_frame frame.
Proof.
  unfold frame_of_line, Part000.parseLine.
  destruct (Regex.exec Part000.nodeRe line) as [parts|] eqn:E; [right|now left].
  eexists. split; [reflexivity|].
  destruct (nodeRe_line line parts E) as (x & text & -> & Hall).
  split; cbn [Part000.lineNumber Part000.file Part000.non_empty option_map String.eqb].
  - eexists. split; [reflexivity|now apply to_number_digits].
  - unfold Part000.non_empty. destruct (Regex.capture parts 2) as [f|]; [|discriminate].
    destruct (String.eqb_spec f ""); [discriminate|congruence].
Qed.

Lemma parsed_frames_proper (stackString : string) :
  Forall proper_frame (Part000.parseStackTrace stackString).
Proof.
  rewrite parseStackTrace_in_order.
  induction (Js.split_lines stackString) as [|line lines IH]; [constructor|].
  simpl. apply Forall_app. split; [|exact IH].
  destruct (frame_of_line_proper line) as [-> | (frame & -> & Hp)];
    [constructor|now constructor].
Qed.


(** *** Traces of several stacks *)

Lemma split_lines_aux_app (a b cur : string) :
  Js.split_lines_aux cur (a ++ LF ++ b)
  = (Js.split_lines_aux cur a ++ Js.split_lines_aux "" b)%list.
Proof.
  revert cur. induction a as [|x a IH]; intros cur.
  - reflexivity.
  - change ((String x a) ++ LF ++ b) with (String x (a ++ LF ++ b)).
    cbn [Js.split_lines_aux].
    destruct (Ascii.eqb x (ascii_of_nat 10)); now rewrite IH.
Qed.

Lemma parse_app (a b : string) :
  Part000.parseStackTrace (a ++ LF ++ b)
  = (Part000.parseStackTrace a ++ Part000.parseStackTrace b)%list.
Proof.
  rewrite !parseStackTrace_in_order. unfold Js.split_lines.
  now rewrite split_lines_aux_app, flat_map_app.
Qed.

Lemma parse_joined (stacks : list string) :
  Part000.parseStackTrace (Js.join (LF ++ LF) (map Some stacks))
  = flat_map Part000.parseStackTrace stacks.
Proof.
  destruct stacks as [|x rest]; [reflexivity|].
  revert x. induction rest as [|y rest IH]; intros x.
  - simpl. now rewrite app_nil_r.
  - change (Js.join (LF ++ LF) (map Some (x :: y :: rest)))
      with (x ++ (LF ++ LF) ++ Js.join (LF ++ LF) (map Some (y :: rest))).
    change (x ++ (LF ++ LF) ++ Js.join (LF ++ LF) (map Some (y :: rest)))
      with (x ++ LF ++ ("" ++ LF ++ Js.join (LF ++ LF) (map Some (y :: rest)))).
    rewrite !parse_app, IH. reflexivity.
Qed.

(** The frames of two traces put together with a line feed are the frames
    of the first and then the frames of the second; so the frames of the
    [trace] of a failed test are the frames of the stacks of its errors, in
    the order of the errors. *)
Theorem frames_of_joined_stacks (a b : string) (errs : list TestError) :
  Part000.parseStackTrace (a ++ LF ++ b)
  = (Part000.parseStackTrace a ++ Part000.parseStackTrace b)%list
  /\ Part000.parseStackTrace
       (Js.join (LF ++ LF) (filter Js.truthy (map (fun error => stack error) errs)))
     = flat_map Part000.parseStackTrace (stacks_with_text errs).
Proof.
  split; [apply parse_app|]. rewrite truthy_stacks. apply parse_joined.
Qed.

(** *** The line of a record *)

Lemma find_some {A : Type} (callback : A -> Exn bool) (xs : list A) (x : A) :
  Array_find callback xs = Ok (Some x) -> In x xs /\ callback x = Ok true.
Proof.
  induction xs as [|y xs IH]; [discriminate|].
  simpl. destruct (callback y) as [[|]|error] eqn:Hy; [| |discriminate].
  - intros H. inversion H; subst. split; [now left|exact Hy].
  - intros H. destruct (IH H). split; [now right|assumption].
Qed.

Lemma found_is_own (host : Host) (testFilePath : string) (frame : Part000.Frame) :
  Part000.isTestFrame host testFilePath frame = Ok true ->
  own_frame host testFilePath frame.
Proof.
  unfold Part000.isTestFrame, own_frame.
  destruct (Part000.file frame) as [f|]; [|discriminate].
  destruct (path_resolve host f) as [p|] eqn:Hp; [|discriminate].
  destruct (path_resolve host testFilePath) as [q|] eqn:Hq; [|discriminate].
  intros H. inversion H as [He]. apply String.eqb_eq in He. subst.
  now exists f, q.
Qed.

Lemma extracted_line (host : Host) (trace testFilePath : string) (n : Z) :
  Part000.extractLineNumber host trace testFilePath = Some n ->
  (0 <= n)%Z
  /\ exists frame,
       In frame (Part000.parseStackTrace trace)
       /\ Part000.lineNumber frame = Some n
       /\ own_frame host testFilePath frame.
Proof.
  unfold Part000.extractLineNumber.
  destruct (Array_find _ _) as [[frame|]|error] eqn:Hfind; try discriminate.
  intros Hn. apply find_some in Hfind. destruct Hfind as [Hin Hown].
  assert (Hp : proper_frame frame).
  { pose proof (parsed_frames_proper trace) as Hall.
    rewrite Forall_forall in Hall. now apply Hall. }
  destruct Hp as [(m & Hm & Hpos) _]. rewrite Hm in Hn. inversion Hn; subst.
  split; [exact Hpos|]. exists frame. repeat split; try assumption.
  now apply found_is_own.
Qed.

(** A line number that [extractLineNumber] returns is not negative and is
    the line number of a frame of the trace whose file and the file of the
    test resolve to the same path. *)
Theorem line_comes_from_own_frame
  (host : Host) (trace testFilePath : string) (n : Z) :
  Part000.extractLineNumber host trace testFilePath = Some n ->
  (0 <= n)%Z
  /\ exists frame,
       In frame (Part000.parseStackTrace trace)
       /\ Part000.lineNumber frame = Some n
       /\ own_frame host testFilePath frame.
Proof. apply extracted_line. Qed.

(** The trace with the test's own file at line 42. *)
Lemma line_comes_from_own_frame_witness :
  Part000.extractLineNumber (exampleHost true) traceOwn42 "/t/f.test.ts" = Some 42%Z
  /\ (0 <= 42)%Z
  /\ exists frame,
       In frame (Part000.parseStackTrace traceOwn42)
       /\ Part000.lineNumber frame = Some 42%Z
       /\ own_frame (exampleHost true) "/t/f.test.ts" frame.
Proof.
  assert (H : Part000.extractLineNumber (exampleHost true) traceOwn42 "/t/f.test.ts"
              = Some 42%Z) by (vm_compute; reflexivity).
  split; [exact H|].
  exact (line_comes_from_own_frame (exampleHost true) traceOwn42 "/t/f.test.ts" 42 H).
Defined.

(** A record has the property [line] only in the copy of [part_000], only
    when minimal mode is off and the test failed, and the line is then a
    number that is not negative; the copy of [generate-report.ts] never sets
    it. *)
Theorem line_only_on_failed
  (host : Host) (options : ReporterConfigOptions) (testCase : TestCase) :
  Js.has (GenerateReport.buildTest options testCase) "line" = false
  /\ (Js.has (Part000.buildTest host options testCase) "line" = true ->
      minimal options = Some false
      /\ state (result testCase) = "failed"
      /\ mapStatus (result testCase) = Failed
      /\ exists n,
           Js.get (Part000.buildTest host options testCase) "line" = Js.Num n
           /\ (0 <= n)%Z).
Proof.
  split.
  - unfold GenerateReport.buildTest. now destruct (minimal options) as [[|]|].
  - intros Hhas.
    destruct (minimal options) as [[|]|] eqn:Hmin;
      try (unfold Part000.buildTest in Hhas; rewrite Hmin in Hhas; discriminate).
    destruct (Js.get (Part000.extractFailureDetails host testCase) "line") as [|b|n|t|xs|ps]
      eqn:Hline;
      try (rewrite (record_line host options testCase Hline) in Hhas; discriminate).
    all: pose proof Hline as Hvalue; rewrite failure_line in Hvalue; cbv zeta in Hvalue.
    all: destruct (isTestFailed (result testCase)) eqn:Hf; [|discriminate].
    all: cbn [andb] in Hvalue.
    all: destruct (negb _ && negb _); [|discriminate].
    all: destruct (Part000.extractLineNumber host _ _) as [m|] eqn:Hm; try discriminate.
    inversion Hvalue; subst.
    apply extracted_line in Hm. destruct Hm as [Hpos _].
    unfold isTestFailed in Hf. apply String.eqb_eq in Hf.
    split; [reflexivity|]. split; [exact Hf|].
    split; [unfold mapStatus; now rewrite Hf|].
    exists n. split; [|exact Hpos].
    unfold Part000.buildTest. rewrite Hmin, Hline. reflexivity.
Qed.

(** The failed test whose trace has a frame of its own file, with the
    default options: the record of [part_000] has the line 42. *)
Lemma line_only_on_failed_witness :
  Js.has (Part000.buildTest (exampleHost true) (resolveOptions noOptions) failedAt42) "line"
  = true
  /\ minimal (resolveOptions noOptions) = Some false
  /\ state (result failedAt42) = "failed"
  /\ mapStatus (result failedAt42) = Failed
  /\ exists n,
       Js.get (Part000.buildTest (exampleHost true) (resolveOptions noOptions) failedAt42)
         "line" = Js.Num n
       /\ (0 <= n)%Z.
Proof.
  assert (H : Js.has (Part000.buildTest (exampleHost true) (resolveOptions noOptions)
                        failedAt42) "line" = true) by (vm_compute; reflexivity).
  split; [exact H|].
  exact (proj2 (line_only_on_failed (exampleHost true) (resolveOptions noOptions) failedAt42)
           H).
Defined.

(** *** The lines that give a frame *)

Lemma ichar_space (z : ascii) : Regex.ichar " " z = true -> z = " "%char.
Proof.
  unfold Regex.ichar. intros H. apply Nat.eqb_eq in H.
  assert (Hs : Regex.upper " " = 32) by reflexivity.
  rewrite Hs in H. unfold Regex.upper, Regex.code in H.
  destruct ((97 <=? nat_of_ascii z) && (nat_of_ascii z <=? 122))%nat eqn:E.
  - apply andb_prop in E. destruct E as [E _]. apply Nat.leb_le in E. lia.
  - rewrite <- (ascii_nat_embedding z), <- H. reflexivity.
Qed.

Lemma eps_inv s c s' c' : matches Regex.Eps s c s' c' -> s' = s /\ c' = c.
Proof. inversion 1; subst; now split. Qed.

Lemma nodeRe_begins (line : string) (parts : Regex.captures) :
  Regex.exec Part000.nodeRe line = Some parts -> begins_with_at line.
Proof.
  unfold Regex.exec. intros H. apply matcher_sound in H.
  destruct H as (s' & c' & M & _).
  unfold Part000.nodeRe in M.
  apply seq_inv in M. destruct M as (s1 & c1 & M1 & M).
  apply seq_inv in M. destruct M as (s2 & c2 & M2 & M).
  apply star_chr_inv in M1. destruct M1 as (blanks & -> & Hblanks & _).
  cbn [Regex.Lit] in M2.
  apply seq_inv in M2. destruct M2 as (t1 & d1 & A1 & M2).
  apply seq_inv in M2. destruct M2 as (t2 & d2 & A2 & M2).
  apply seq_inv in M2. destruct M2 as (t3 & d3 & A3 & M2).
  apply chr_inv in A1. destruct A1 as (x & -> & Hx & _).
  apply chr_inv in A2. destruct A2 as (y & -> & Hy & _).
  apply chr_inv in A3. destruct A3 as (z & -> & Hz & _).
  apply ichar_space in Hz. subst z.
  exists blanks, x, y, t3. repeat split; assumption.
Qed.

(** Only a line that begins with white space, the word [at] in either case
    and a space gives a frame; every other line of a trace, such as the line
    of the message, is dropped. *)
Theorem frames_come_from_at_lines (line : string) :
  frame_of_line line <> [] -> begins_with_at line.
Proof.
  unfold frame_of_line, Part000.parseLine.
  destruct (Regex.exec Part000.nodeRe line) as [parts|] eqn:E; [|congruence].
  intros _. now apply nodeRe_begins with parts.
Qed.

(** A frame line of Node, and the line of a message. *)
Lemma frames_come_from_at_lines_witness :
  frame_of_line "    at /t/f.test.ts:42:5"
  = [{| Part000.file := Some "/t/f.test.ts"; Part000.lineNumber := Some 42%Z |}]
  /\ frame_of_line "Error: boom" = []
  /\ begins_with_at "    at /t/f.test.ts:42:5".
Proof.
  split; [vm_compute; reflexivity|]. split; [vm_compute; reflexivity|].
  apply (frames_come_from_at_lines "    at /t/f.test.ts:42:5").
  vm_compute. discriminate.
Defined.

(** *** The status and the message *)

(** When minimal mode is off, the record of a test case, in either copy,
    has a [message] that is a string, and a [trace] that is a string, exactly
    when its [status] is [failed]; for every other status both are
    [undefined]. *)
Theorem message_iff_failed
  (host : Host) (options : ReporterConfigOptions) (testCase : TestCase) :
  minimal options = Some false ->
  let failed_status := String.eqb (state_name (mapStatus (result testCase))) "failed" in
  let agrees (test : CtrfTest) :=
    Js.get test "status" = Js.Str (state_name (mapStatus (result testCase)))
    /\ is_string (Js.get test "message") = failed_status
    /\ is_string (Js.get test "trace") = failed_status
    /\ (failed_status = false ->
        Js.get test "message" = Js.Undefined /\ Js.get test "trace" = Js.Undefined) in
  agrees (GenerateReport.buildTest options testCase)
  /\ agrees (Part000.buildTest host options testCase).
Proof.
  intros Hmin failed_status agrees. unfold agrees, failed_status.
  destruct (mapStatus_name (result testCase)) as (_ & -> & _).
  unfold GenerateReport.buildTest, Part000.buildTest. rewrite Hmin.
  unfold GenerateReport.extractFailureDetails, Part000.extractFailureDetails.
  change (String.eqb (state (result testCase)) "failed")
    with (isTestFailed (result testCase)).
  destruct (isTestFailed (result testCase)).
  - destruct (negb _ && negb _); [destruct (Part000.extractLineNumber _ _ _)|];
      repeat split; discriminate.
  - repeat split.
Qed.

(** The passed test and the failed test of the run of two tests. *)
Lemma message_iff_failed_witness :
  minimal (resolveOptions noOptions) = Some false
  /\ is_string (Js.get (GenerateReport.buildTest (resolveOptions noOptions) passedCase)
                  "message") = false
  /\ is_string (Js.get (Part000.buildTest (exampleHost true) (resolveOptions noOptions)
                          failedCase) "message") = true.
Proof.
  split; [reflexivity|]. split.
  - exact (proj1 (proj2 (proj1 (message_iff_failed (exampleHost true)
                                  (resolveOptions noOptions) passedCase eq_refl)))).
  - exact (proj1 (proj2 (proj2 (message_iff_failed (exampleHost true)
                                  (resolveOptions noOptions) failedCase eq_refl)))).
Defined.
